(** * PhongNews backend (src/server.js): a shallow embedding

    The server is an Express application whose handlers read and write
    whole JSON values in a remote key-value store (Upstash Redis) under
    the keys [users], [pending] and [data_<table>].  Each handler is
    embedded as a state-passing computation over that store; the
    JavaScript operations the handlers rely on (truthiness, property
    access, [String], [toLowerCase], object spread, the array methods)
    are embedded with the results they have on JSON data, including the
    exceptions they raise.

    Conventions.  A string stands for its sequence of bytes; what
    [toLowerCase] does beyond ASCII and how a number beyond the safe
    integers prints is left to the engine.  A number is an integer.
    A request body is a JSON object (what [express.json()] leaves in
    [req.body], the empty object when the request has none); the query
    parameter [token] is absent or a string; path parameters are
    strings.  One request runs at a time.  Of the outside world only the
    mail transporter can fail; the store always answers. *)

From stdpp Require Import base strings gmap list pretty.

Set Warnings "-register-all".
Set Default Proof Using "Type".
Open Scope string_scope.
Open Scope list_scope.

(** ** JSON values

    What [express.json()] hands to a handler and what the store client
    returns from [redis.get]: the result of [JSON.parse].  Numbers are
    the integers (the only numbers the server itself produces are
    [Date.now()] timestamps); an object is a finite map from property
    names to values. *)

Inductive json : Type :=
  | JNull
  | JBool (b : bool)
  | JNum (n : Z)
  | JStr (s : string)
  | JArr (l : list json)
  | JObj (m : gmap string json).

(** A JavaScript expression over JSON data evaluates to a JSON value or
    to [undefined]; the latter is [None]. *)
Definition jsval : Type := option json.

(** ** Exceptions and the result of evaluating an expression *)

Inductive exn : Type :=
  | TypeError (what : string)
  | IllegalArguments (first second : string)
  | TransportError (msg : string).

Inductive result (A : Type) : Type :=
  | Ok (a : A)
  | Throw (e : exn).
Arguments Ok {A} a.
Arguments Throw {A} e.

#[export] Instance result_ret : MRet result := λ A a, Ok a.
#[export] Instance result_bind : MBind result := λ A B f r,
  match r with
  | Ok a => f a
  | Throw e => Throw e
  end.

(** ** JavaScript operations on JSON data *)

(** [!v] is [negb (js_truthy v)]: [undefined], [null], [false], [0] and
    the empty string are falsy, everything else (every array and object
    included) is truthy. *)
Definition js_truthy (v : jsval) : bool :=
  match v with
  | None | Some JNull => false
  | Some (JBool b) => b
  | Some (JNum n) => negb (n =? 0)%Z
  | Some (JStr s) => negb (bool_decide (s = ""))
  | Some (JArr _) | Some (JObj _) => true
  end.

(** [typeof v]. *)
Definition js_typeof (v : jsval) : string :=
  match v with
  | None => "undefined"
  | Some (JBool _) => "boolean"
  | Some (JNum _) => "number"
  | Some (JStr _) => "string"
  | Some JNull | Some (JArr _) | Some (JObj _) => "object"
  end.

(** [a || d] where [a] is a JSON value. *)
Definition js_or (a d : json) : json :=
  if js_truthy (Some a) then a else d.

(** [v.k] for a property name [k] that no built-in prototype defines
    ([email], [approved], [password], [id]): reading a property of
    [null] throws, a primitive or an array has no such property. *)
Definition js_get (v : json) (k : string) : result jsval :=
  match v with
  | JNull => Throw (TypeError "Cannot read properties of null")
  | JObj m => Ok (m !! k)
  | _ => Ok None
  end.

(** The letters A to Z lowered, every other character kept: what
    [String.prototype.toLowerCase] does to a string of ASCII
    characters. *)
Definition lower_ascii (c : Ascii.ascii) : Ascii.ascii :=
  let n := Ascii.nat_of_ascii c in
  if (65 <=? n)%nat && (n <=? 90)%nat then Ascii.ascii_of_nat (n + 32) else c.

Fixpoint lower_letters (s : string) : string :=
  match s with
  | EmptyString => EmptyString
  | String c r => String (lower_ascii c) (lower_letters r)
  end.

Definition ascii_only (s : string) : Prop :=
  Forall (λ c, (Ascii.nat_of_ascii c < 128)%nat) (String.list_ascii_of_string s).

(** The integers every double represents exactly, and the range of a
    time value ([Date.now()] lies within 8.64e15 milliseconds of the
    epoch). *)
Definition safe_integer (n : Z) : Prop := (Z.abs n ≤ 9007199254740992)%Z.
Definition time_value (t : Z) : Prop := (Z.abs t ≤ 8640000000000000)%Z.

Definition time_value_check (t : Z)
    (H : (Z.abs t <=? 8640000000000000)%Z = true) : time_value t :=
  proj1 (Z.leb_le _ _) H.

(** ** The engine and the libraries

    What the server calls and does not define.  Of the engine:
    [String.prototype.toLowerCase], which lowers every cased letter of
    Unicode and on ASCII text is [lower_letters]; the conversion of a
    number to a string, which on a safe integer is its decimal numeral
    (from 1e21 on the engine prints an exponent); and the text an
    exception gives as [e.message].  Of the libraries: bcryptjs, whose
    error on an argument of the wrong type names the types of both
    arguments, and jsonwebtoken (with the configured secret and the
    7-day expiry). *)
Class Platform : Type := {
  toLowerCase : string → string;
  number_toString : Z → string;
  bcrypt_hash : string → string → string;     (* salt, password *)
  bcrypt_compare : string → string → bool;    (* password, hash *)
  jwt_sign : gmap string json → Z → string;   (* payload, time *)
  exn_message : exn → string;
  toLowerCase_ascii : ∀ s, ascii_only s → toLowerCase s = lower_letters s;
  number_toString_safe : ∀ n, safe_integer n → number_toString n = pretty n;
  exn_message_illegal : ∀ first second,
    exn_message (IllegalArguments first second)
    = "Illegal arguments: " +:+ first +:+ ", " +:+ second;
  bcrypt_compare_hash : ∀ s p, bcrypt_compare p (bcrypt_hash s p) = true
}.

(** [v.toLowerCase()]: only a string has the method. *)
Definition js_toLowerCase `{Platform} (v : jsval) : result string :=
  match v with
  | Some (JStr s) => Ok (toLowerCase s)
  | _ => Throw (TypeError "toLowerCase is not a function")
  end.

(** [String(v)].  A number prints as the engine prints it (the decimal
    numeral for a safe integer, an exponent from 1e21 on).  An array joins the strings of its elements with
    commas, [null] elements giving the empty string; a plain object
    gives ["[object Object]"], unless it has an own [toString] property,
    which as JSON data is not callable and makes the conversion throw. *)
Fixpoint json_String `{Platform} (v : json) : result string :=
  match v with
  | JNull => Ok "null"
  | JBool true => Ok "true"
  | JBool false => Ok "false"
  | JNum n => Ok (number_toString n)
  | JStr s => Ok s
  | JArr l =>
      (fix join (l : list json) : result string :=
         match l with
         | [] => Ok ""
         | x :: r =>
             match (match x with JNull => Ok "" | _ => json_String x end) with
             | Throw e => Throw e
             | Ok sx =>
                 match r with
                 | [] => Ok sx
                 | _ :: _ =>
                     match join r with
                     | Throw e => Throw e
                     | Ok sr => Ok (sx +:+ "," +:+ sr)
                     end
                 end
             end
         end) l
  | JObj m =>
      match m !! "toString" with
      | Some _ => Throw (TypeError "Cannot convert object to primitive value")
      | None => Ok "[object Object]"
      end
  end.

Definition js_String `{Platform} (v : jsval) : result string :=
  match v with
  | None => Ok "undefined"
  | Some j => json_String j
  end.

(** The characters of a string, each as a one-character string. *)
Fixpoint string_chars (s : string) : list json :=
  match s with
  | EmptyString => []
  | String c r => JStr (String c EmptyString) :: string_chars r
  end.

Definition indexed (l : list json) : gmap string json :=
  list_to_map (imap (λ i x, (pretty i, x)) l).

(** The own enumerable properties that [{...v}] copies. *)
Definition spread (v : json) : gmap string json :=
  match v with
  | JObj m => m
  | JArr l => indexed l
  | JStr s => indexed (string_chars s)
  | JNull | JBool _ | JNum _ => ∅
  end.

(** One property [k: v] of an object literal, as it is after JSON
    serialisation: a property whose value is [undefined] is left out. *)
Definition prop (k : string) (v : jsval) (o : gmap string json)
  : gmap string json :=
  match v with
  | Some j => <[k := j]> o
  | None => delete k o
  end.

(** [v.k = x] in strict mode, followed by JSON serialisation of [v]:
    an object gets the property, an array keeps its elements (a
    non-index property is not serialised), a primitive throws. *)
Definition js_set (v : json) (k : string) (x : json) : result json :=
  match v with
  | JObj m => Ok (JObj (<[k := x]> m))
  | JArr l => Ok (JArr l)
  | _ => Throw (TypeError "Cannot create property")
  end.

(** [v.find], [v.findIndex], [v.filter], [v.push]: only an array has
    these methods. *)
Definition as_array (v : json) : result (list json) :=
  match v with
  | JArr l => Ok l
  | _ => Throw (TypeError "not a function")
  end.

(** [l.findIndex(p)] from position [i] on; the callback may throw, and
    is not called past the first hit. *)
Fixpoint findIndex_from (p : json → result bool) (l : list json) (i : nat)
  : result (option nat) :=
  match l with
  | [] => Ok None
  | x :: r =>
      b ← p x;
      if (b : bool) then Ok (Some i) else findIndex_from p r (S i)
  end.

Definition js_findIndex (p : json → result bool) (l : list json)
  : result (option nat) :=
  findIndex_from p l 0.

(** [l.find(p)]: the first element satisfying [p], with its position,
    which stands for the reference JavaScript returns. *)
Definition js_find (p : json → result bool) (l : list json)
  : result (option (nat * json)) :=
  oi ← js_findIndex p l;
  Ok (i ← oi; x ← l !! i; Some (i, x)).

(** [l.filter(p)] *)
Fixpoint js_filter (p : json → result bool) (l : list json)
  : result (list json) :=
  match l with
  | [] => Ok []
  | x :: r =>
      b ← p x;
      r' ← js_filter p r;
      Ok (if (b : bool) then x :: r' else r')
  end.

(** The property names every object inherits from [Object.prototype]. *)
Definition object_prototype_names : list string :=
  [ "constructor"; "__defineGetter__"; "__defineSetter__"; "hasOwnProperty";
    "__lookupGetter__"; "__lookupSetter__"; "isPrototypeOf";
    "propertyIsEnumerable"; "toString"; "valueOf"; "__proto__";
    "toLocaleString" ].

(** [o[k]] for an object [o] and a computed key [k]: an own property, or
    one found on [Object.prototype] (a built-in function, or the
    prototype object itself for [__proto__]), or [undefined]. *)
Inductive property : Type :=
  | Undefined
  | Own (v : json)
  | Inherited.

Definition js_lookup (o : gmap string json) (k : string) : property :=
  match o !! k with
  | Some v => Own v
  | None => if bool_decide (k ∈ object_prototype_names) then Inherited else Undefined
  end.

Definition property_truthy (p : property) : bool :=
  match p with
  | Undefined => false
  | Own v => js_truthy (Some v)
  | Inherited => true
  end.

(** [{...p}]: a built-in has no own enumerable property. *)
Definition property_spread (p : property) : gmap string json :=
  match p with
  | Own v => spread v
  | Undefined | Inherited => ∅
  end.

(** ** The world a handler runs in *)

Record mail : Type := Mail {
  mail_to : jsval;
  mail_subject : string;
  mail_content : string
}.

(** The store behind [redis.get]/[redis.set], and the mails the
    transporter has accepted. *)
Record world : Type := World {
  kv : gmap string json;
  outbox : list mail
}.

Inductive body : Type :=
  | Json (j : json)
  | Text (s : string).

Record response : Type := Response {
  status : Z;
  payload : body
}.

(** What one request draws from its environment: the clock, the
    randomness of [bcrypt.hash] and [Math.random], whether the mail
    transporter rejects, and the configuration read from [process.env]
    and the request headers. *)
Record env : Type := Env {
  now : Z;                       (* Date.now() *)
  now_time : time_value now;     (* ... which is a time value *)
  iso_now : string;              (* new Date().toISOString() *)
  salt : string;                 (* the salt bcrypt.hash generates *)
  random36 : list nat;           (* base-36 digits of Math.random() *)
  mail_failure : option string;  (* Some msg: sendMail rejects with msg *)
  base_url : string;             (* baseUrlFromReq(req) *)
  admin_email : option string    (* process.env.ADMIN_EMAIL *)
}.

(** One step of a handler: it goes on with a value, throws, has sent the
    response (every response in the source is followed by [return] or
    ends the handler), or has left what is modelled. *)
Inductive step (A : Type) : Type :=
  | Cont (a : A)
  | Thrown (e : exn)
  | Responded (r : response)
  | OutsideModel.
Arguments Cont {A} a.
Arguments Thrown {A} e.
Arguments Responded {A} r.
Arguments OutsideModel {A}.

Definition handler (A : Type) : Type := world → step A * world.

#[export] Instance handler_ret : MRet handler := λ A a w, (Cont a, w).
#[export] Instance handler_bind : MBind handler := λ A B f h w,
  match h w with
  | (Cont a, w') => f a w'
  | (Thrown e, w') => (Thrown e, w')
  | (Responded r, w') => (Responded r, w')
  | (OutsideModel, w') => (OutsideModel, w')
  end.

Definition eval {A} (r : result A) : handler A := λ w,
  match r with
  | Ok a => (Cont a, w)
  | Throw e => (Thrown e, w)
  end.

Definition respond {A} (r : response) : handler A := λ w, (Responded r, w).

Definition outside_model {A} : handler A := λ w, (OutsideModel, w).

(** [try { h } catch (e) { k e }] *)
Definition try_catch {A} (h : handler A) (k : exn → handler A) : handler A :=
  λ w,
  match h w with
  | (Thrown e, w') => k e w'
  | other => other
  end.

(** [res.status(c).json(j)], [res.json(j)], [res.status(c).send(s)] *)
Definition json_reply {A} (c : Z) (j : json) : handler A :=
  respond (Response c (Json j)).
Definition text_reply {A} (c : Z) (s : string) : handler A :=
  respond (Response c (Text s)).

(** [await redis.get(k)]: [null] for a key that is not set. *)
Definition redis_get (k : string) : handler json := λ w,
  (Cont (default JNull (kv w !! k)), w).

(** [await redis.set(k, v)] *)
Definition redis_set (k : string) (v : json) : handler unit := λ w,
  (Cont tt, World (<[k := v]> (kv w)) (outbox w)).

(** What a request ends in: a response, an exception no handler caught
    (the client gets no response from the handler), or a store content
    outside the model. *)
Inductive outcome : Type :=
  | Replied (r : response)
  | Unhandled (e : exn)
  | Unmodelled.

Definition run (h : handler Empty_set) (w : world) : outcome * world :=
  match h w with
  | (Cont a, _) => match a with end
  | (Thrown e, w') => (Unhandled e, w')
  | (Responded r, w') => (Replied r, w')
  | (OutsideModel, w') => (Unmodelled, w')
  end.

Section Server.
Context `{Platform}.
Variable e : env.

(** *** Helpers (server.js, 46-87) *)

Definition safeUser (u : jsval) : json :=
  match u with
  | Some j => if js_truthy u then JObj (delete "password" (spread j)) else JNull
  | None => JNull
  end.

Definition sendMail (m : mail) : handler unit := λ w,
  match mail_failure e with
  | Some msg => (Thrown (TransportError msg), w)
  | None => (Cont tt, World (kv w) (outbox w ++ [m]))
  end.

Definition readUsers : handler json :=
  v ← redis_get "users"; mret (js_or v (JArr [])).

Definition saveUsers (data : json) : handler unit :=
  redis_set "users" data.

(** [readPending] returns the stored value or [{}]; the handlers use it
    as an object, which it is whenever it was written by [savePending]. *)
Definition readPending : handler (gmap string json) :=
  v ← redis_get "pending";
  match js_or v (JObj ∅) with
  | JObj m => mret m
  | _ => outside_model
  end.

Definition savePending (data : gmap string json) : handler unit :=
  redis_set "pending" (JObj data).

(** The callback [u => u.email.toLowerCase() === email.toLowerCase()] *)
Definition same_email (email : jsval) (u : json) : result bool :=
  ue ← js_get u "email";
  a ← js_toLowerCase ue;
  b ← js_toLowerCase email;
  Ok (bool_decide (a = b)).

(** [users.find(u => ...)] *)
Definition find_user (users : json) (email : jsval)
  : result (option (nat * json)) :=
  l ← as_array users;
  js_find (same_email email) l.

(** [bcrypt.hash(password, 10)] and [bcrypt.compare(password, hash)]
    reject anything but strings, with an error that names the types of
    the two arguments. *)
Definition js_bcrypt_hash (password : jsval) : result string :=
  match password with
  | Some (JStr p) => Ok (bcrypt_hash (salt e) p)
  | _ => Throw (IllegalArguments (js_typeof password) "number")
  end.

Definition js_bcrypt_compare (password hash : jsval) : result bool :=
  match password, hash with
  | Some (JStr p), Some (JStr h) => Ok (bcrypt_compare p h)
  | _, _ => Throw (IllegalArguments (js_typeof password) (js_typeof hash))
  end.

(** *** POST /api/auth/register (server.js, 92-121) *)

Definition register (req : gmap string json) : handler Empty_set :=
  try_catch
    (let name := req !! "name" in
     let email := req !! "email" in
     let password := req !! "password" in
     if negb (js_truthy name) || negb (js_truthy email) || negb (js_truthy password)
     then json_reply 400 (JObj {[ "message" := JStr "Thiếu thông tin." ]})
     else
       users ← readUsers;
       existed ← eval (find_user users email);
       if js_truthy (snd <$> existed)
       then json_reply 409 (JObj {[ "message" := JStr "Email đã tồn tại." ]})
       else
         hash ← eval (js_bcrypt_hash password);
         let userDraft : gmap string json :=
           <[ "approved" := JBool false ]>
           (<[ "createdAt" := JStr (iso_now e) ]>
           (<[ "password" := JStr hash ]>
           (prop "email" email
           (prop "name" name ∅)))) in
         let token := jwt_sign (prop "email" email ∅) (now e) in
         pending ← readPending;
         savePending (<[ token := JObj userDraft ]> pending);;
         let approveUrl := base_url e +:+ "/api/auth/approve?token=" +:+ token in
         sname ← eval (js_String name);
         semail ← eval (js_String email);
         sendMail (Mail (JStr <$> admin_email e)
                        "Có tài khoản đăng ký mới cần duyệt"
                        ("<p>" +:+ sname +:+ " (" +:+ semail +:+ ")</p><p>Duyệt: <a href="
                         +:+ String (Ascii.ascii_of_nat 34) (approveUrl
                         +:+ String (Ascii.ascii_of_nat 34) (">" +:+ approveUrl +:+ "</a></p>"))));;
         json_reply 200 (JObj {[ "message" := JStr "Đăng ký thành công. Vui lòng chờ duyệt." ]}))
    (λ err,
       json_reply 500 (JObj (<[ "message" := JStr "Lỗi đăng ký" ]>
                             {[ "error" := JStr (exn_message err) ]}))).

(** *** GET /api/auth/approve (server.js, 124-138)

    [token] is the query parameter, absent or a string. *)

Definition approve (token : option string) : handler Empty_set :=
  if negb (js_truthy (JStr <$> token))
  then text_reply 400 "Thiếu token."
  else
    let token := default "" token in
    pending ← readPending;
    let draft := js_lookup pending token in
    if negb (property_truthy draft)
    then text_reply 404 "Token không hợp lệ."
    else
      users ← readUsers;
      l ← eval (as_array users);
      let users := l ++ [JObj (<[ "approved" := JBool true ]> (property_spread draft))] in
      saveUsers (JArr users);;
      savePending (delete token pending);;
      text_reply 200 "Phê duyệt thành công.".

(** *** POST /api/auth/login (server.js, 141-153) *)

Definition login (req : gmap string json) : handler Empty_set :=
  let email := req !! "email" in
  let password := req !! "password" in
  users ← readUsers;
  found ← eval (find_user users email);
  match found with
  | None => json_reply 404 (JObj {[ "message" := JStr "Không tìm thấy người dùng." ]})
  | Some (_, user) =>
      if negb (js_truthy (Some user))
      then json_reply 404 (JObj {[ "message" := JStr "Không tìm thấy người dùng." ]})
      else
        approved ← eval (js_get user "approved");
        if negb (js_truthy approved)
        then json_reply 403 (JObj {[ "message" := JStr "Chưa được duyệt." ]})
        else
          hash ← eval (js_get user "password");
          ok ← eval (js_bcrypt_compare password hash);
          if negb ok
          then json_reply 401 (JObj {[ "message" := JStr "Sai mật khẩu." ]})
          else
            uemail ← eval (js_get user "email");
            let token := jwt_sign (prop "email" uemail ∅) (now e) in
            json_reply 200 (JObj (<[ "token" := JStr token ]>
                                  {[ "user" := safeUser (Some user) ]}))
  end.

(** *** POST /api/auth/forgot (server.js, 156-167) *)

(** [Math.random().toString(36)]: ["0"] for zero, else ["0."] followed
    by the base-36 digits of the fraction. *)
Definition digit36 (d : nat) : Ascii.ascii :=
  let d := (d mod 36)%nat in
  if (d <? 10)%nat then Ascii.ascii_of_nat (48 + d) else Ascii.ascii_of_nat (87 + d).

Definition random_toString36 (digits : list nat) : string :=
  match digits with
  | [] => "0"
  | _ => "0." +:+ String.string_of_list_ascii (digit36 <$> digits)
  end.

(** [s.slice(i, j)] for [0 <= i <= j] *)
Definition slice (i j : nat) (s : string) : string :=
  String.string_of_list_ascii (take (j - i) (drop i (String.list_ascii_of_string s))).

Definition forgot (req : gmap string json) : handler Empty_set :=
  let email := req !! "email" in
  users ← readUsers;
  found ← eval (find_user users email);
  match found with
  | None => json_reply 404 (JObj {[ "message" := JStr "Không tìm thấy người dùng." ]})
  | Some (i, user) =>
      if negb (js_truthy (Some user))
      then json_reply 404 (JObj {[ "message" := JStr "Không tìm thấy người dùng." ]})
      else
        let tmp := slice 2 8 (random_toString36 (random36 e)) in
        hash ← eval (js_bcrypt_hash (Some (JStr tmp)));
        user' ← eval (js_set user "password" (JStr hash));
        l ← eval (as_array users);
        saveUsers (JArr (<[ i := user' ]> l));;
        sendMail (Mail email "Mật khẩu tạm thời" ("Mật khẩu tạm: " +:+ tmp));;
        json_reply 200 (JObj {[ "message" := JStr "Đã gửi mật khẩu tạm thời." ]})
  end.

(** *** The record routes (server.js, 170-205) *)

Definition allowedTables : list string :=
  [ "rooms"; "guests"; "bookings"; "invoices"; "settings" ].

(** [allowedTables.includes(table)] *)
Definition allowed (table : string) : bool :=
  bool_decide (table ∈ allowedTables).

(** The template [`data_${table}`] *)
Definition data_key (table : string) : string := "data_" +:+ table.

(** [i => String(i.id) === String(id)], the path parameter [id] being a
    string already *)
Definition has_id (id : string) (i : json) : result bool :=
  v ← js_get i "id";
  s ← js_String v;
  Ok (bool_decide (s = id)).

Definition has_not_id (id : string) (i : json) : result bool :=
  b ← has_id id i; Ok (negb b).

Definition invalid_table : json :=
  JObj {[ "message" := JStr "Table không hợp lệ" ]}.

Definition ok_true : json := JObj {[ "ok" := JBool true ]}.

(** GET /api/data/:table *)
Definition data_list (table : string) : handler Empty_set :=
  if negb (allowed table) then json_reply 400 invalid_table
  else
    v ← redis_get (data_key table);
    json_reply 200 (js_or v (JArr [])).

(** POST /api/data/:table *)
Definition data_create (table : string) (item : gmap string json)
  : handler Empty_set :=
  if negb (allowed table) then json_reply 400 invalid_table
  else
    v ← redis_get (data_key table);
    l ← eval (as_array (js_or v (JArr [])));
    redis_set (data_key table) (JArr (l ++ [JObj (<[ "id" := JNum (now e) ]> item)]));;
    json_reply 200 ok_true.

(** PUT /api/data/:table/:id *)
Definition data_update (table id : string) (patch : gmap string json)
  : handler Empty_set :=
  v ← redis_get (data_key table);
  l ← eval (as_array (js_or v (JArr [])));
  idx ← eval (js_findIndex (has_id id) l);
  match idx with
  | None => json_reply 404 (JObj {[ "message" := JStr "Không tìm thấy mục" ]})
  | Some idx =>
      let old := default JNull (l !! idx) in
      redis_set (data_key table) (JArr (<[ idx := JObj (patch ∪ spread old) ]> l));;
      json_reply 200 ok_true
  end.

(** DELETE /api/data/:table/:id *)
Definition data_delete (table id : string) : handler Empty_set :=
  v ← redis_get (data_key table);
  l ← eval (as_array (js_or v (JArr [])));
  newList ← eval (js_filter (has_not_id id) l);
  redis_set (data_key table) (JArr newList);;
  json_reply 200 ok_true.

(** GET /api/health *)
Definition health : handler Empty_set :=
  json_reply 200 ok_true.

End Server.

(** ** A concrete platform

    Stand-ins for the libraries, to run the handlers on concrete
    requests: the hash keeps the password readable and ignores the salt,
    the token spells out its claim and its time; the engine is taken on
    ASCII text and on the safe integers, where its laws fix it. *)

Definition demo_platform : Platform := {|
  toLowerCase := lower_letters;
  number_toString := pretty;
  bcrypt_hash := λ _ p, "$2a$10$" +:+ p;
  bcrypt_compare := λ p h, bool_decide (h = "$2a$10$" +:+ p);
  jwt_sign := λ claims t,
    "eyJ." +:+ default "" (r ← claims !! "email"; match r with JStr s => Some s | _ => None end)
           +:+ "." +:+ pretty t;
  exn_message := λ x,
    match x with
    | TypeError what => what
    | IllegalArguments first second =>
        "Illegal arguments: " +:+ first +:+ ", " +:+ second
    | TransportError msg => msg
    end;
  toLowerCase_ascii := λ _ _, eq_refl;
  number_toString_safe := λ _ _, eq_refl;
  exn_message_illegal := λ _ _, eq_refl;
  bcrypt_compare_hash := λ _ p, bool_decide_eq_true_2 _ eq_refl
|}.

Definition demo_env : env := {|
  now := 1700000000000;
  now_time := time_value_check 1700000000000 eq_refl;
  iso_now := "2023-11-14T22:13:20.000Z";
  salt := "salt";
  random36 := [10; 1; 35; 0; 7; 20; 3; 3];
  mail_failure := None;
  base_url := "https://phongnews.example";
  admin_email := Some "admin@phongnews.example"
|}.

Definition empty_world : world := World ∅ [].

(** ** Vocabulary of the statements *)

(** The value stored under a key as the handlers see it: [get(k) || d]. *)
Definition stored (k : string) (d : json) (w : world) : json :=
  js_or (default JNull (kv w !! k)) d.

Definition stored_users (w : world) : json := stored "users" (JArr []) w.
Definition stored_pending (w : world) : json := stored "pending" (JObj ∅) w.
Definition stored_table (table : string) (w : world) : json :=
  stored (data_key table) (JArr []) w.

(** A field of a record; a value that is not an object has none. *)
Definition field (u : json) (k : string) : jsval :=
  match u with
  | JObj m => m !! k
  | _ => None
  end.

Definition user_email (u : json) : option string :=
  match field u "email" with
  | Some (JStr s) => Some s
  | _ => None
  end.

(** A stored user as the data model has it: a record with a string
    [email]. *)
Definition well_formed (u : json) : Prop := is_Some (user_email u).

(** Case-insensitive equality of two email addresses. *)
Definition ci_equal `{Platform} (a b : string) : Prop := toLowerCase a = toLowerCase b.

Definition has_email `{Platform} (em : string) (u : json) : bool :=
  match user_email u with
  | Some s => bool_decide (toLowerCase s = toLowerCase em)
  | None => false
  end.




(** The user a request for [em] is matched with: the first stored user
    whose email equals [em] up to case, with its position. *)
Definition matched_user `{Platform} (em : string) (us : list json) : option (nat * json) :=
  list_find (has_email em) us.

(** The string a record's [id] is compared by, when it has one. *)
Definition id_string `{Platform} (r : json) : option string :=
  match r with
  | JNull => None
  | _ => match js_String (field r "id") with
         | Ok s => Some s
         | Throw _ => None
         end
  end.

(** A stored record as the data model has it: an object whose [id]
    can be compared. *)
Definition record `{Platform} (r : json) : Prop :=
  (∃ m, r = JObj m) ∧ is_Some (id_string r).

(** The record a request for [id] is matched with: the first stored
    record whose [id] gives the string [id], with its position. *)
Definition matched_record `{Platform} (id : string) (l : list json) : option (nat * json) :=
  list_find (λ r, id_string r = Some id) l.

(** The records a request to delete [id] leaves. *)
Definition without_id `{Platform} (id : string) (l : list json) : list json :=
  filter (λ r, id_string r ≠ Some id) l.

(** A handler is confined to the key [k] when it leaves every other key
    and the outbox as they were, and when what it does depends on the
    store through the value under [k] alone. *)
Definition confined {A} (k : string) (h : handler A) : Prop :=
  (∀ w, (∀ k', k' ≠ k → kv (h w).2 !! k' = kv w !! k')
        ∧ outbox (h w).2 = outbox w)
  ∧ (∀ w1 w2, kv w1 !! k = kv w2 !! k →
        (h w1).1 = (h w2).1 ∧ kv (h w1).2 !! k = kv (h w2).2 !! k).

(** The requests of the record API. *)
Inductive data_request : Type :=
  | List (table : string)
  | Create (table : string) (item : gmap string json)
  | Update (table id : string) (patch : gmap string json)
  | Delete (table id : string).

Definition table_of (q : data_request) : string :=
  match q with
  | List t | Create t _ | Update t _ _ | Delete t _ => t
  end.

Definition data_api `{Platform} (e : env) (q : data_request) : handler Empty_set :=
  match q with
  | List t => data_list t
  | Create t item => data_create e t item
  | Update t id patch => data_update t id patch
  | Delete t id => data_delete t id
  end.

(** The responses of the authentication routes. *)
Definition message (c : Z) (s : string) : response :=
  Response c (Json (JObj {[ "message" := JStr s ]})).

Definition not_found : response := message 404 "Không tìm thấy người dùng.".
Definition not_approved : response := message 403 "Chưa được duyệt.".
Definition wrong_password : response := message 401 "Sai mật khẩu.".
Definition missing_fields : response := message 400 "Thiếu thông tin.".
Definition email_taken : response := message 409 "Email đã tồn tại.".
Definition registered : response :=
  message 200 "Đăng ký thành công. Vui lòng chờ duyệt.".
Definition temporary_sent : response := message 200 "Đã gửi mật khẩu tạm thời.".

Definition item_not_found : response := message 404 "Không tìm thấy mục".
Definition table_rejected : response :=
  Response 400 (Json (JObj {[ "message" := JStr "Table không hợp lệ" ]})).
Definition done_ok : response :=
  Response 200 (Json (JObj {[ "ok" := JBool true ]})).

(** The store with [v] written under the key of [table]. *)
Definition with_table (table : string) (v : list json) (w : world) : world :=
  World (<[ data_key table := JArr v ]> (kv w)) (outbox w).

Definition token_missing : response := Response 400 (Text "Thiếu token.").
Definition token_invalid : response := Response 404 (Text "Token không hợp lệ.").
Definition approved_ok : response := Response 200 (Text "Phê duyệt thành công.").

(** The store after [approve] has promoted [user] and dropped [token]. *)
Definition promoted (token : string) (user : json) (us : list json)
    (pend : gmap string json) (w : world) : world :=
  World (<[ "pending" := JObj (delete token pend) ]>
         (<[ "users" := JArr (us ++ [user]) ]> (kv w)))
        (outbox w).

Definition logged_in `{Platform} (e : env) (u : json) : response :=
  Response 200
    (Json (JObj (<[ "token" := JStr (jwt_sign (prop "email" (field u "email") ∅) (now e)) ]>
                 {[ "user" := JObj (delete "password" (spread u)) ]}))).

Definition registration_failed `{Platform} (x : exn) : response :=
  Response 500 (Json (JObj (<[ "message" := JStr "Lỗi đăng ký" ]>
                            {[ "error" := JStr (exn_message x) ]}))).

(** The draft [register] builds and the token it stores it under. *)
Definition draft_of `{Platform} (e : env) (name em p : string) : gmap string json :=
  <[ "approved" := JBool false ]>
  (<[ "createdAt" := JStr (iso_now e) ]>
  (<[ "password" := JStr (bcrypt_hash (salt e) p) ]>
  (<[ "email" := JStr em ]>
  (<[ "name" := JStr name ]> ∅)))).

Definition token_of `{Platform} (e : env) (em : string) : string :=
  jwt_sign {[ "email" := JStr em ]} (now e).

(** The mail [register] sends to the administrator. *)
Definition approval_mail `{Platform} (e : env) (name em : string) : mail :=
  let approveUrl := base_url e +:+ "/api/auth/approve?token=" +:+ token_of e em in
  Mail (JStr <$> admin_email e)
       "Có tài khoản đăng ký mới cần duyệt"
       ("<p>" +:+ name +:+ " (" +:+ em +:+ ")</p><p>Duyệt: <a href="
        +:+ String (Ascii.ascii_of_nat 34) (approveUrl
        +:+ String (Ascii.ascii_of_nat 34) (">" +:+ approveUrl +:+ "</a></p>"))).

(** The store after [register] has saved the draft. *)
Definition with_draft `{Platform} (e : env) (name em p : string)
    (pend : gmap string json) (w : world) : world :=
  World (<[ "pending" := JObj (<[ token_of e em := JObj (draft_of e name em p) ]> pend) ]> (kv w))
        (outbox w).

(** The temporary password [forgot] draws. *)
Definition temporary_password (e : env) : string :=
  slice 2 8 (random_toString36 (random36 e)).

(** The record [forgot] leaves in place of the user [u], and the mail it
    sends to the address [em] of the request. *)
Definition reset_user `{Platform} (e : env) (u : json) : json :=
  JObj (<[ "password" := JStr (bcrypt_hash (salt e) (temporary_password e)) ]>
        (spread u)).

Definition temporary_mail (e : env) (em : string) : mail :=
  Mail (Some (JStr em)) "Mật khẩu tạm thời"
       ("Mật khẩu tạm: " +:+ temporary_password e).






(** ** Sample data *)

Definition demo_user : json :=
  JObj (<[ "name" := JStr "An" ]>
       (<[ "email" := JStr "An@X.io" ]>
       (<[ "password" := JStr "$2a$10$pw" ]>
       (<[ "createdAt" := JStr "2023-11-14T22:13:20.000Z" ]>
       {[ "approved" := JBool true ]})))).

Definition demo_users : list json := [demo_user].

Definition demo_world : world :=
  World {[ "users" := JArr demo_users ]} [].

Definition demo_login : gmap string json :=
  <[ "email" := JStr "an@x.IO" ]> {[ "password" := JStr "pw" ]}.

Definition failing_mail_env : env := {|
  now := now demo_env;
  now_time := now_time demo_env;
  iso_now := iso_now demo_env;
  salt := salt demo_env;
  random36 := random36 demo_env;
  mail_failure := Some "connect ECONNREFUSED";
  base_url := base_url demo_env;
  admin_email := admin_email demo_env
|}.

Definition demo_register : gmap string json :=
  <[ "name" := JStr "Binh" ]>
  (<[ "email" := JStr "binh@x.io" ]>
  {[ "password" := JStr "secret" ]}).



(** A pending mapping that already holds a draft for the same email. *)
Definition demo_pending : gmap string json :=
  {[ "eyJ.Binh@x.io.1600000000000" :=
       JObj (<[ "name" := JStr "Binh" ]>
            (<[ "email" := JStr "Binh@x.io" ]>
            (<[ "password" := JStr "$2a$10$older" ]>
            (<[ "createdAt" := JStr "2020-09-13T12:26:40.000Z" ]>
            {[ "approved" := JBool false ]})))) ]}.

Definition demo_pending_world : world :=
  World (<[ "users" := JArr demo_users ]> {[ "pending" := JObj demo_pending ]}) [].

(** A user list with a user that is not approved. *)
Definition unapproved_user : json :=
  JObj (<[ "name" := JStr "Chi" ]>
       (<[ "email" := JStr "chi@x.io" ]>
       (<[ "password" := JStr "$2a$10$old" ]>
       {[ "approved" := JBool false ]}))).

Definition mixed_users : list json := [demo_user; unapproved_user].

Definition mixed_world : world :=
  World {[ "users" := JArr mixed_users ]} [].

Definition demo_forgot : gmap string json := {[ "email" := JStr "CHI@x.io" ]}.

(** A collection with two records that share one [id]. *)
Definition room (number id : Z) : json :=
  JObj (<[ "number" := JNum number ]> {[ "id" := JNum id ]}).

Definition demo_rooms : list json :=
  [ room 101 1700000000001; room 102 1700000000002; room 103 1700000000001 ].

Definition rooms_world : world :=
  World {[ "data_rooms" := JArr demo_rooms ]} [].

(** A body that brings an [id] of its own. *)
Definition demo_item : gmap string json :=
  <[ "number" := JNum 101 ]> {[ "id" := JStr "mine" ]}.

Definition demo_patch : gmap string json :=
  <[ "number" := JNum 201 ]> {[ "note" := JStr "sea view" ]}.

(** A collection under a name outside the whitelist. *)
Definition unknown_world : world :=
  World {[ "data_unknown" := JArr [room 1 5] ]} [].

(** A store with users, a pending draft and a collection. *)
Definition full_world : world :=
  World (<[ "data_rooms" := JArr demo_rooms ]> (kv demo_pending_world)) [].

Definition binh_token : string := "eyJ.Binh@x.io.1600000000000".

(** The draft [demo_pending] holds under that token. *)
Definition binh_draft : gmap string json :=
  <[ "name" := JStr "Binh" ]>
  (<[ "email" := JStr "Binh@x.io" ]>
  (<[ "password" := JStr "$2a$10$older" ]>
  (<[ "createdAt" := JStr "2020-09-13T12:26:40.000Z" ]>
  {[ "approved" := JBool false ]}))).

(** Registrations whose [email], or whose [password], is a number. *)
Definition numeric_email_register : gmap string json :=
  <[ "name" := JStr "Binh" ]>
  (<[ "email" := JNum 5 ]>
  {[ "password" := JStr "secret" ]}).

Definition numeric_password_register : gmap string json :=
  <[ "name" := JStr "Binh" ]>
  (<[ "email" := JStr "binh@x.io" ]>
  {[ "password" := JNum 5 ]}).

(** A login with the temporary password that [demo_env] draws. *)
Definition temporary_login : gmap string json :=
  <[ "email" := JStr "an@x.IO" ]> {[ "password" := JStr "a1z07k" ]}.

(** A second user with the email of the first. *)
Definition shadowed_user : json :=
  JObj (<[ "email" := JStr "AN@x.io" ]>
       (<[ "password" := JStr "$2a$10$other" ]>
       {[ "approved" := JBool true ]})).

Definition shadowed_world : world :=
  World {[ "users" := JArr (demo_users ++ [shadowed_user]) ]} [].

(** A table key that holds an object instead of a list. *)
Definition broken_world : world :=
  World {[ "data_rooms" := JObj {[ "rooms" := JArr [] ]} ]} [].

(** A patch that carries an [id]. *)
Definition rekey_patch : gmap string json := {[ "id" := JStr "new" ]}.


(** ** The base URL of a request (server.js, 54-58)

    [headers] are the request headers as Node gives them, names in lower
    case and values strings; [public_base_url] is
    [process.env.PUBLIC_BASE_URL].  [register] takes the result as
    [base_url] of its environment. *)




(** ** Vocabulary of the statements on the routes together *)

(** The requests of the authentication routes. *)
Inductive auth_request : Type :=
  | Register (req : gmap string json)
  | Approve (token : option string)
  | Login (req : gmap string json)
  | Forgot (req : gmap string json).

Definition auth_api `{Platform} (e : env) (q : auth_request)
  : handler Empty_set :=
  match q with
  | Register req => register e req
  | Approve token => approve token
  | Login req => login e req
  | Forgot req => forgot e req
  end.

(** [wp h Q R w]: run from [w], the handler [h] either goes on with a
    value and a store that satisfy [Q], or stops (it has responded,
    thrown, or left the model) in a store that satisfies [R]. *)
Definition wp {A} (h : handler A) (Q : A → world → Prop) (R : world → Prop)
    (w : world) : Prop :=
  match h w with
  | (Cont a, w') => Q a w'
  | (_, w') => R w'
  end.

(** An invariant of the store survives the writes the authentication
    routes make: a list under [users], an object under [pending], a mail
    added to the outbox. *)
Definition survives_users (I : world → Prop) : Prop :=
  ∀ w l, I w → I (World (<[ "users" := JArr l ]> (kv w)) (outbox w)).
Definition survives_pending (I : world → Prop) : Prop :=
  ∀ w p, I w → I (World (<[ "pending" := JObj p ]> (kv w)) (outbox w)).
Definition survives_mail (I : world → Prop) : Prop :=
  ∀ w m, I w → I (World (kv w) (outbox w ++ [m])).

(** The shape the server gives its two authentication keys. *)
Definition users_listed (w : world) : Prop := ∃ us, stored_users w = JArr us.
Definition pending_mapped (w : world) : Prop :=
  ∃ pend, stored_pending w = JObj pend.

(** The store as the data model has it: the users are well-formed, and
    so is every pending draft. *)
Definition sound (w : world) : Prop :=
  ∃ us pend,
    stored_users w = JArr us ∧ Forall well_formed us
    ∧ stored_pending w = JObj pend
    ∧ map_Forall (λ _ d, well_formed d) pend.

(** A value that [String] converts without throwing. *)
Definition printable `{Platform} (v : json) : Prop := ∃ s, json_String v = Ok s.

(** The requests that keep the store sound: a registration whose
    [email], when present, is a string, and an approval whose token is
    not the name of a member of [Object.prototype]. *)
Definition proper (q : auth_request) : Prop :=
  match q with
  | Register req => ∀ v, req !! "email" = Some v → ∃ s, v = JStr s
  | Approve (Some t) => t ∉ object_prototype_names
  | Approve None | Login _ | Forgot _ => True
  end.

(** Tactics for the statements on sample data: a closed goal is
    settled by evaluation; a list of sample records is checked record
    by record. *)
Ltac evaluate := vm_compute; reflexivity.

Ltac all_records :=
  repeat (apply Forall_cons_2;
          [split; [by eexists | eexists; evaluate] |]);
  apply Forall_nil_2.

(** ** Running a handler step by step *)

(** The status codes of the named responses. *)
Lemma response_codes :
  status missing_fields = 400%Z ∧ status token_missing = 400%Z
  ∧ status table_rejected = 400%Z ∧ status wrong_password = 401%Z
  ∧ status not_approved = 403%Z ∧ status not_found = 404%Z
  ∧ status token_invalid = 404%Z ∧ status item_not_found = 404%Z
  ∧ status email_taken = 409%Z ∧ status registered = 200%Z
  ∧ status approved_ok = 200%Z ∧ status temporary_sent = 200%Z
  ∧ status done_ok = 200%Z.
Proof. repeat split. Qed.

Section Execution.
Context `{Platform}.
Variable e : env.

Lemma bind_eq {A B} (h : handler A) (f : A → handler B) (w : world) :
  (h ≫= f) w =
  match h w with
  | (Cont a, w') => f a w'
  | (Thrown x, w') => (Thrown x, w')
  | (Responded r, w') => (Responded r, w')
  | (OutsideModel, w') => (OutsideModel, w')
  end.
Proof. reflexivity. Qed.

Lemma readUsers_eq (w : world) : readUsers w = (Cont (stored_users w), w).
Proof. reflexivity. Qed.

Lemma readPending_eq (w : world) (pend : gmap string json) :
  stored_pending w = JObj pend → readPending w = (Cont pend, w).
Proof.
  intros Hp. unfold readPending. rewrite bind_eq. simpl.
  unfold stored_pending, stored in Hp. by rewrite Hp.
Qed.

(** *** Finding a user *)

Lemma well_formed_object (u : json) : well_formed u → ∃ m, u = JObj m.
Proof.
  intros [s Hs]. destruct u; try discriminate. eauto.
Qed.

Lemma same_email_well_formed (em : string) (u : json) :
  well_formed u → same_email (Some (JStr em)) u = Ok (has_email em u).
Proof.
  intros [s Hs]. unfold has_email. rewrite Hs.
  unfold user_email, field in Hs.
  destruct u as [| | | |l|m]; try discriminate.
  unfold same_email. simpl.
  destruct (m !! "email") as [[| | |s'| |]|]; try discriminate.
  by injection Hs as ->.
Qed.

Lemma findIndex_from_matched (em : string) (us : list json) (i : nat) :
  Forall well_formed us →
  findIndex_from (same_email (Some (JStr em))) us i
  = Ok ((λ p, i + p.1) <$> matched_user em us).
Proof.
  unfold matched_user.
  intros Hwf. revert i. induction Hwf as [|u us Hu _ IH]; intros i; [done|].
  simpl. rewrite same_email_well_formed by done. simpl.
  destruct (has_email em u) eqn:Hm; simpl.
  - by rewrite Nat.add_0_r.
  - rewrite IH.
    destruct (list_find _ us) as [[j x]|]; simpl; [|done].
    do 2 f_equal. lia.
Qed.

Lemma find_user_matched (em : string) (us : list json) :
  Forall well_formed us →
  find_user (JArr us) (Some (JStr em)) = Ok (matched_user em us).
Proof.
  intros Hwf. unfold find_user, js_find, js_findIndex. simpl.
  rewrite findIndex_from_matched by done. simpl.
  destruct (matched_user em us) as [[j x]|] eqn:Hf; simpl; [|done].
  apply list_find_Some in Hf as (Hj & _). by rewrite Hj.
Qed.

Lemma matched_user_None (em : string) (us : list json) :
  matched_user em us = None ↔
  ∀ u s, u ∈ us → user_email u = Some s → ¬ ci_equal s em.
Proof.
  unfold matched_user. rewrite list_find_None, Forall_forall.
  split.
  - intros Hno u s Hu Hs Heq. apply (Hno u Hu).
    unfold has_email. rewrite Hs. by apply bool_decide_pack.
  - intros Hno u Hu Hm. unfold has_email in Hm.
    destruct (user_email u) as [s|] eqn:Hs; [|done].
    apply bool_decide_unpack in Hm. by apply (Hno u s).
Qed.

Lemma matched_user_Some (em : string) (us : list json) (i : nat) (u : json) :
  matched_user em us = Some (i, u) →
  us !! i = Some u ∧ ∃ s, user_email u = Some s ∧ ci_equal s em.
Proof.
  unfold matched_user. intros (Hi & Hm & _)%list_find_Some.
  split; [done|]. unfold has_email in Hm.
  destruct (user_email u) as [s|]; [|done].
  exists s. split; [done|]. by apply bool_decide_unpack in Hm.
Qed.

(** *** login *)

Lemma login_run (w : world) (us : list json) (em : string)
    (req : gmap string json) :
  stored_users w = JArr us →
  Forall well_formed us →
  req !! "email" = Some (JStr em) →
  run (login e req) w =
  match matched_user em us with
  | None => (Replied not_found, w)
  | Some (_, u) =>
      if negb (js_truthy (field u "approved")) then (Replied not_approved, w)
      else
        match js_bcrypt_compare (req !! "password") (field u "password") with
        | Throw x => (Unhandled x, w)
        | Ok true => (Replied (logged_in e u), w)
        | Ok false => (Replied wrong_password, w)
        end
  end.
Proof.
  intros Hst Hwf Hem.
  unfold run, login. rewrite Hem.
  rewrite bind_eq, readUsers_eq, Hst.
  rewrite bind_eq. unfold eval at 1. rewrite find_user_matched by done.
  destruct (matched_user em us) as [[i u]|] eqn:Hf; [|done].
  apply matched_user_Some in Hf as (Hi%list_elem_of_lookup_2 & _).
  rewrite Forall_forall in Hwf.
  destruct (well_formed_object u) as [m ->]; [by apply Hwf|].
  simpl. rewrite bind_eq. simpl.
  destruct (js_truthy (m !! "approved")); simpl; [|done].
  rewrite !bind_eq. simpl.
  destruct (js_bcrypt_compare _ _) as [[|]|x]; simpl; done.
Qed.







(** *** register *)


Lemma truthy_string (s : string) : s ≠ "" → js_truthy (Some (JStr s)) = true.
Proof. intros Hs. simpl. by rewrite bool_decide_false. Qed.

Lemma truthy_fmap_string (s : string) :
  s ≠ "" → js_truthy (JStr <$> Some s) = true.
Proof. apply truthy_string. Qed.

Lemma register_run (w : world) (req : gmap string json)
    (name em p : string) (us : list json) (pend : gmap string json) :
  req !! "name" = Some (JStr name) → name ≠ "" →
  req !! "email" = Some (JStr em) → em ≠ "" →
  req !! "password" = Some (JStr p) → p ≠ "" →
  stored_users w = JArr us →
  Forall well_formed us →
  stored_pending w = JObj pend →
  run (register e req) w =
  match matched_user em us with
  | Some _ => (Replied email_taken, w)
  | None =>
      match mail_failure e with
      | Some msg =>
          (Replied (registration_failed (TransportError msg)),
           with_draft e name em p pend w)
      | None =>
          (Replied registered,
           World (kv (with_draft e name em p pend w))
                 (outbox w ++ [approval_mail e name em]))
      end
  end.
Proof.
  intros Hn Hn' Hem Hem' Hp Hp' Hst Hwf Hpend.
  unfold run, register, try_catch. rewrite Hn, Hem, Hp.
  rewrite !truthy_string by done. cbn [negb orb].
  rewrite bind_eq, readUsers_eq, Hst.
  rewrite bind_eq. unfold eval at 1. rewrite find_user_matched by done.
  destruct (matched_user em us) as [[i u]|] eqn:Hf.
  - apply matched_user_Some in Hf as (Hi%list_elem_of_lookup_2 & _).
    rewrite Forall_forall in Hwf.
    destruct (well_formed_object u) as [m ->]; [by apply Hwf|]. done.
  - simpl.
    rewrite bind_eq. unfold eval at 1.
    rewrite bind_eq, (readPending_eq w pend Hpend).
    rewrite bind_eq. unfold savePending, redis_set at 1.
    rewrite bind_eq. unfold eval at 1.
    rewrite bind_eq. unfold eval at 1.
    rewrite bind_eq. unfold sendMail.
    destruct (mail_failure e) as [msg|]; reflexivity.
Qed.


Lemma stored_pending_with_draft (w : world) (name em p : string)
    (pend : gmap string json) :
  stored_pending (with_draft e name em p pend w)
  = JObj (<[ token_of e em := JObj (draft_of e name em p) ]> pend).
Proof.
  unfold stored_pending, stored, with_draft. simpl.
  by rewrite lookup_insert_eq.
Qed.


(** C9.  When [register] has a valid payload and a fresh email and the
    mail transporter rejects, the answer is 500, and the pending mapping
    holds the new draft under the minted token: the draft was saved
    before the mail was attempted, and no mail went out. *)
Theorem register_mail_failure_keeps_draft (w : world)
    (req : gmap string json) (name em p msg : string) (us : list json)
    (pend : gmap string json) :
  req !! "name" = Some (JStr name) → name ≠ "" →
  req !! "email" = Some (JStr em) → em ≠ "" →
  req !! "password" = Some (JStr p) → p ≠ "" →
  stored_users w = JArr us →
  Forall well_formed us →
  stored_pending w = JObj pend →
  (∀ u s, u ∈ us → user_email u = Some s → ¬ ci_equal s em) →
  mail_failure e = Some msg →
  ∃ r w', run (register e req) w = (Replied r, w')
          ∧ r = registration_failed (TransportError msg)
          ∧ status r = 500%Z
          ∧ (∃ pend', stored_pending w' = JObj pend'
                      ∧ pend' !! token_of e em = Some (JObj (draft_of e name em p)))
          ∧ outbox w' = outbox w.
Proof.
  intros Hn Hn' Hem Hem' Hp Hp' Hst Hwf Hpend Hno%matched_user_None Hmail.
  rewrite (register_run w req name em p us pend) by done.
  rewrite Hno, Hmail. do 2 eexists. split; [reflexivity|].
  split; [done|]. split; [done|]. split; [|done].
  eexists. split; [apply stored_pending_with_draft|].
  apply lookup_insert_eq.
Qed.

(** *** approve *)

Lemma approve_missing (w : world) (token : option string) :
  token = None ∨ token = Some "" →
  run (approve token) w = (Replied token_missing, w).
Proof. by intros [-> | ->]. Qed.

Lemma approve_run (w : world) (t : string) (us : list json)
    (pend : gmap string json) :
  t ≠ "" →
  stored_pending w = JObj pend →
  stored_users w = JArr us →
  run (approve (Some t)) w =
  if property_truthy (js_lookup pend t)
  then (Replied approved_ok,
        promoted t (JObj (<[ "approved" := JBool true ]>
                          (property_spread (js_lookup pend t)))) us pend w)
  else (Replied token_invalid, w).
Proof.
  intros Ht Hpend Hst. unfold run, approve.
  rewrite truthy_fmap_string by done. cbn [negb].
  rewrite bind_eq, (readPending_eq w pend Hpend).
  change (default "" (Some t)) with t.
  destruct (property_truthy (js_lookup pend t)); [|done].
  cbn [negb]. rewrite bind_eq, readUsers_eq, Hst.
  reflexivity.
Qed.

Lemma js_lookup_own (pend : gmap string json) (t : string) (d : json) :
  pend !! t = Some d → js_lookup pend t = Own d.
Proof. intros Hd. unfold js_lookup. by rewrite Hd. Qed.

Lemma js_lookup_absent (pend : gmap string json) (t : string) :
  pend !! t = None → t ∉ object_prototype_names →
  js_lookup pend t = Undefined.
Proof.
  intros Hd Ht. unfold js_lookup. rewrite Hd. by rewrite bool_decide_false.
Qed.

Lemma js_lookup_inherited (pend : gmap string json) (t : string) :
  pend !! t = None → t ∈ object_prototype_names →
  js_lookup pend t = Inherited.
Proof.
  intros Hd Ht. unfold js_lookup. rewrite Hd. by rewrite bool_decide_true.
Qed.

(** What [approve] does for a token that is not the name of a member of
    [Object.prototype]: 404 when the pending mapping has no draft under
    it; otherwise the draft joins the users with [approved] true and the
    token leaves the mapping, so that approving again answers 404 and
    changes nothing. *)
Lemma approve_own_token (w : world) (t : string) (us : list json)
    (pend : gmap string json) :
  t ≠ "" →
  t ∉ object_prototype_names →
  stored_pending w = JObj pend →
  stored_users w = JArr us →
  (pend !! t = None → run (approve (Some t)) w = (Replied token_invalid, w))
  ∧ (∀ d, pend !! t = Some (JObj d) →
       let w' := promoted t (JObj (<[ "approved" := JBool true ]> d)) us pend w in
       run (approve (Some t)) w = (Replied approved_ok, w')
       ∧ stored_users w' = JArr (us ++ [JObj (<[ "approved" := JBool true ]> d)])
       ∧ stored_pending w' = JObj (delete t pend)
       ∧ run (approve (Some t)) w' = (Replied token_invalid, w')).
Proof.
  intros Ht Hown Hpend Hst. split.
  - intros Hd. rewrite (approve_run w t us pend) by done.
    by rewrite js_lookup_absent.
  - intros d Hd w'.
    assert (stored_users w' = JArr (us ++ [JObj (<[ "approved" := JBool true ]> d)]))
      as Hst'.
    { unfold stored_users, stored, w', promoted. simpl.
      rewrite lookup_insert_ne by done. by rewrite lookup_insert_eq. }
    assert (stored_pending w' = JObj (delete t pend)) as Hpend'.
    { unfold stored_pending, stored, w', promoted. simpl.
      by rewrite lookup_insert_eq. }
    split; [|split; [done|split; [done|]]].
    + rewrite (approve_run w t us pend) by done.
      by rewrite (js_lookup_own pend t (JObj d)).
    + rewrite (approve_run w' t _ _ Ht Hpend' Hst').
      rewrite js_lookup_absent; [done| |done]. apply lookup_delete_eq.
Qed.

(** What [approve] does for the name of a member of [Object.prototype]
    that the pending mapping does not hold: it answers 200, appends a
    record holding nothing but [approved: true] to the users, and leaves
    the pending mapping as it was, so that the same request is accepted
    again. *)
Lemma approve_inherited_name (w : world) (t : string) (us : list json)
    (pend : gmap string json) :
  t ∈ object_prototype_names →
  pend !! t = None →
  stored_pending w = JObj pend →
  stored_users w = JArr us →
  run (approve (Some t)) w
  = (Replied approved_ok,
     promoted t (JObj {[ "approved" := JBool true ]}) us pend w)
  ∧ stored_pending (promoted t (JObj {[ "approved" := JBool true ]}) us pend w)
    = JObj pend
  ∧ stored_users (promoted t (JObj {[ "approved" := JBool true ]}) us pend w)
    = JArr (us ++ [JObj {[ "approved" := JBool true ]}]).
Proof.
  intros Ht Hd Hpend Hst.
  assert (t ≠ "") as Hne.
  { intros ->. revert Ht. by apply (bool_decide_unpack _). }
  rewrite (approve_run w t us pend) by done.
  rewrite js_lookup_inherited by done.
  split; [done|]. unfold stored_pending, stored_users, stored, promoted. simpl.
  rewrite lookup_insert_eq, lookup_insert_ne by done.
  rewrite lookup_insert_eq. by rewrite delete_id.
Qed.

(** C1.  The name of a member of [Object.prototype] is a token that the
    pending mapping does not hold and that [approve] nevertheless
    accepts: on the empty store, approving [constructor] twice answers
    200 both times, and the user list ends with two records that hold
    nothing but [approved: true]. *)
Theorem approve_inherited_name_twice :
  kv empty_world !! "pending" = None
  ∧ ∃ w1 w2,
      run (approve (Some "constructor")) empty_world = (Replied approved_ok, w1)
      ∧ run (approve (Some "constructor")) w1 = (Replied approved_ok, w2)
      ∧ stored_users w1 = JArr [JObj {[ "approved" := JBool true ]}]
      ∧ stored_users w2 = JArr [JObj {[ "approved" := JBool true ]};
                                JObj {[ "approved" := JBool true ]}].
Proof.
  split; [done|].
  assert ("constructor" ∈ object_prototype_names) as Hin by (by left).
  destruct (approve_inherited_name empty_world "constructor" [] ∅)
    as (Hrun1 & Hpend1 & Hst1); [done..|].
  destruct (approve_inherited_name _ "constructor" _ ∅ Hin (lookup_empty _) Hpend1 Hst1)
    as (Hrun2 & _ & Hst2).
  eexists _, _. split; [exact Hrun1|]. split; [exact Hrun2|].
  split; [exact Hst1|exact Hst2].
Qed.

(** *** From registration to login *)

(** X20.  The life of an identity: a registration with a fresh email,
    the approval of its token, then a login with the same email and
    password, which succeeds because [bcrypt.compare] accepts the hash
    [bcrypt.hash] made. *)
Lemma register_approve_login (w : world) (req : gmap string json)
    (name em p : string) (us : list json) (pend : gmap string json) :
  req !! "name" = Some (JStr name) → name ≠ "" →
  req !! "email" = Some (JStr em) → em ≠ "" →
  req !! "password" = Some (JStr p) → p ≠ "" →
  stored_users w = JArr us →
  Forall well_formed us →
  stored_pending w = JObj pend →
  matched_user em us = None →
  mail_failure e = None →
  token_of e em ≠ "" →
  let user := JObj (<[ "approved" := JBool true ]> (draft_of e name em p)) in
  let w1 := (run (register e req) w).2 in
  let w2 := (run (approve (Some (token_of e em))) w1).2 in
  (run (register e req) w).1 = Replied registered
  ∧ (run (approve (Some (token_of e em))) w1).1 = Replied approved_ok
  ∧ stored_users w2 = JArr (us ++ [user])
  ∧ run (login e req) w2 = (Replied (logged_in e user), w2).
Proof.
  intros Hn Hn' Hem Hem' Hp Hp' Hst Hwf Hpend Hno Hmail Htok user w1 w2.
  assert (run (register e req) w
          = (Replied registered,
             World (kv (with_draft e name em p pend w))
                   (outbox w ++ [approval_mail e name em]))) as Hreg.
  { rewrite (register_run w req name em p us pend) by done.
    by rewrite Hno, Hmail. }
  assert (stored_pending w1
          = JObj (<[ token_of e em := JObj (draft_of e name em p) ]> pend))
    as Hpend1.
  { unfold w1. rewrite Hreg. apply stored_pending_with_draft. }
  assert (stored_users w1 = JArr us) as Hst1.
  { unfold w1. rewrite Hreg, <- Hst. unfold stored_users, stored. simpl.
    by rewrite lookup_insert_ne. }
  assert (run (approve (Some (token_of e em))) w1
          = (Replied approved_ok,
             promoted (token_of e em) user us
               (<[ token_of e em := JObj (draft_of e name em p) ]> pend) w1))
    as Happ.
  { rewrite (approve_run w1 _ us _ Htok Hpend1 Hst1).
    by rewrite (js_lookup_own _ _ (JObj (draft_of e name em p)))
      by apply lookup_insert_eq. }
  assert (stored_users w2 = JArr (us ++ [user])) as Hst2.
  { unfold w2. rewrite Happ. unfold stored_users, stored, promoted. simpl.
    rewrite lookup_insert_ne by done. by rewrite lookup_insert_eq. }
  assert (user_email user = Some em) as Huser by done.
  split; [by rewrite Hreg|]. split; [by rewrite Happ|]. split; [done|].
  rewrite (login_run w2 (us ++ [user]) em req Hst2); [|by apply Forall_app; split; [|repeat constructor; exists em]|done].
  assert (matched_user em (us ++ [user]) = Some (length us, user)) as ->.
  { unfold matched_user in *. rewrite list_find_app_r by done. simpl.
    rewrite decide_True; [done|].
    unfold has_email. rewrite Huser. by apply bool_decide_pack. }
  rewrite Hp. simpl. unfold draft_of.
  rewrite lookup_insert_eq. simpl.
  do 3 (rewrite lookup_insert_ne by done). rewrite lookup_insert_eq.
  by rewrite bcrypt_compare_hash.
Qed.

(** *** forgot *)





Lemma forgot_run (w : world) (us : list json) (em : string)
    (req : gmap string json) :
  stored_users w = JArr us →
  Forall well_formed us →
  req !! "email" = Some (JStr em) →
  run (forgot e req) w =
  match matched_user em us with
  | None => (Replied not_found, w)
  | Some (i, u) =>
      let saved := <[ "users" := JArr (<[ i := reset_user e u ]> us) ]> (kv w) in
      match mail_failure e with
      | Some msg => (Unhandled (TransportError msg), World saved (outbox w))
      | None =>
          (Replied temporary_sent,
           World saved (outbox w ++ [temporary_mail e em]))
      end
  end.
Proof.
  intros Hst Hwf Hem.
  unfold run, forgot. rewrite Hem.
  rewrite bind_eq, readUsers_eq, Hst.
  rewrite bind_eq. unfold eval at 1. rewrite find_user_matched by done.
  destruct (matched_user em us) as [[i u]|] eqn:Hf; [|done].
  apply matched_user_Some in Hf as (Hi%list_elem_of_lookup_2 & _).
  rewrite Forall_forall in Hwf.
  destruct (well_formed_object u) as [m ->]; [by apply Hwf|].
  simpl. rewrite !bind_eq. simpl. unfold sendMail.
  destruct (mail_failure e); reflexivity.
Qed.









(** *** The record routes *)

Lemma findIndex_from_pure (p : json → result bool) (Q : json → Prop)
    `{∀ x, Decision (Q x)} (l : list json) (i : nat) :
  Forall (λ x, p x = Ok (bool_decide (Q x))) l →
  findIndex_from p l i = Ok ((λ r, i + r.1) <$> list_find Q l).
Proof.
  intros Hp. revert i. induction Hp as [|x l Hx _ IH]; intros i; [done|].
  simpl. rewrite Hx. simpl. destruct (decide (Q x)) as [HQ|HQ].
  - rewrite bool_decide_true by done. simpl. by rewrite Nat.add_0_r.
  - rewrite bool_decide_false by done. rewrite IH.
    destruct (list_find Q l) as [[j y]|]; simpl; [|done].
    do 2 f_equal. lia.
Qed.

Lemma js_filter_pure (p : json → result bool) (Q : json → Prop)
    `{∀ x, Decision (Q x)} (l : list json) :
  Forall (λ x, p x = Ok (bool_decide (Q x))) l →
  js_filter p l = Ok (filter Q l).
Proof.
  induction 1 as [|x l Hx _ IH]; [done|].
  simpl. rewrite Hx, IH. simpl. rewrite filter_cons.
  destruct (decide (Q x)).
  - by rewrite bool_decide_true.
  - by rewrite bool_decide_false.
Qed.

Lemma has_id_record (id : string) (r : json) :
  record r → has_id id r = Ok (bool_decide (id_string r = Some id)).
Proof.
  intros [[m ->] [s Hs]]. unfold has_id. simpl in *.
  destruct (js_String (m !! "id")) as [s'|]; [|done]. simpl.
  injection Hs as ->. f_equal. apply bool_decide_ext. naive_solver.
Qed.

Lemma has_not_id_record (id : string) (r : json) :
  record r → has_not_id id r = Ok (bool_decide (id_string r ≠ Some id)).
Proof.
  intros Hr. unfold has_not_id. rewrite has_id_record by done. simpl.
  f_equal. by rewrite bool_decide_not.
Qed.

Lemma data_list_run (table : string) (w : world) :
  run (data_list table) w =
  if allowed table
  then (Replied (Response 200 (Json (stored_table table w))), w)
  else (Replied table_rejected, w).
Proof. unfold run, data_list. by destruct (allowed table). Qed.

Lemma data_create_run (table : string) (item : gmap string json)
    (l : list json) (w : world) :
  stored_table table w = JArr l →
  run (data_create e table item) w =
  if allowed table
  then (Replied done_ok,
        with_table table (l ++ [JObj (<[ "id" := JNum (now e) ]> item)]) w)
  else (Replied table_rejected, w).
Proof.
  intros Hl. unfold run, data_create. destruct (allowed table); [|done].
  cbn [negb]. rewrite bind_eq. unfold redis_get at 1.
  fold (stored (data_key table) (JArr []) w). fold (stored_table table w).
  by rewrite Hl.
Qed.

Lemma data_update_run (table id : string) (patch : gmap string json)
    (l : list json) (w : world) :
  stored_table table w = JArr l →
  Forall record l →
  run (data_update table id patch) w =
  match matched_record id l with
  | None => (Replied item_not_found, w)
  | Some (i, r) =>
      (Replied done_ok,
       with_table table (<[ i := JObj (patch ∪ spread r) ]> l) w)
  end.
Proof.
  intros Hl Hrec. unfold run, data_update.
  rewrite bind_eq. unfold redis_get at 1.
  fold (stored (data_key table) (JArr []) w). fold (stored_table table w).
  rewrite Hl. rewrite bind_eq. unfold eval at 1. simpl as_array. cbv iota.
  rewrite bind_eq. unfold eval at 1, js_findIndex.
  rewrite (findIndex_from_pure _ (λ r, id_string r = Some id)); last first.
  { eapply Forall_impl; [done|]. intros r Hr. by apply has_id_record. }
  fold (matched_record id l).
  destruct (matched_record id l) as [[i r]|] eqn:Hm; [|done].
  apply list_find_Some in Hm as (Hi & _). simpl. by rewrite Hi.
Qed.

Lemma data_delete_run (table id : string) (l : list json) (w : world) :
  stored_table table w = JArr l →
  Forall record l →
  run (data_delete table id) w
  = (Replied done_ok, with_table table (without_id id l) w).
Proof.
  intros Hl Hrec. unfold run, data_delete.
  rewrite bind_eq. unfold redis_get at 1.
  fold (stored (data_key table) (JArr []) w). fold (stored_table table w).
  rewrite Hl. rewrite bind_eq. unfold eval at 1. simpl as_array. cbv iota.
  rewrite bind_eq. unfold eval at 1.
  rewrite (js_filter_pure _ (λ r, id_string r ≠ Some id)); [done|].
  eapply Forall_impl; [done|]. intros r Hr. by apply has_not_id_record.
Qed.

Lemma stored_with_table (table : string) (v : list json) (w : world) :
  stored_table table (with_table table v w) = JArr v.
Proof.
  unfold stored_table, stored, with_table. simpl. by rewrite lookup_insert_eq.
Qed.

Lemma data_create_rejected (table : string) (item : gmap string json)
    (w : world) :
  allowed table = false →
  run (data_create e table item) w = (Replied table_rejected, w).
Proof. intros Hno. unfold run, data_create. by rewrite Hno. Qed.

Lemma allowed_true (table : string) :
  table ∈ allowedTables → allowed table = true.
Proof. apply bool_decide_eq_true_2. Qed.

Lemma allowed_false (table : string) :
  table ∉ allowedTables → allowed table = false.
Proof. apply bool_decide_eq_false_2. Qed.

Lemma matched_record_None (id : string) (l : list json) :
  matched_record id l = None ↔ ∀ r, r ∈ l → id_string r ≠ Some id.
Proof.
  unfold matched_record. by rewrite list_find_None, Forall_forall.
Qed.


(** C4.  For a whitelisted table whose stored collection is a list, a
    create with body [item] at time [now] followed by a list yields the
    collection with one more, last element: [item] with [id] set to
    [now], replacing any [id] that [item] carried, and every other field
    of [item] as it was. *)
Theorem create_then_list_round_trip (table : string)
    (item : gmap string json) (l : list json) (w : world) :
  table ∈ allowedTables →
  stored_table table w = JArr l →
  let created := JObj (<[ "id" := JNum (now e) ]> item) in
  ∃ w', run (data_create e table item) w = (Replied done_ok, w')
        ∧ run (data_list table) w'
          = (Replied (Response 200 (Json (JArr (l ++ [created])))), w')
        ∧ last (l ++ [created]) = Some created
        ∧ field created "id" = Some (JNum (now e))
        ∧ ∀ k, k ≠ "id" → field created k = item !! k.
Proof.
  intros Hin%allowed_true Hl created.
  rewrite (data_create_run table item l w Hl), Hin.
  eexists. split; [reflexivity|].
  rewrite data_list_run, Hin, stored_with_table.
  split; [done|]. split; [apply last_snoc|].
  split; [apply lookup_insert_eq|].
  intros k Hk. by apply lookup_insert_ne.
Qed.

(** C5.  For a table outside the whitelist, list and create answer 400
    with the body [{"message":"Table không hợp lệ"}] and leave the store
    as it was, whereas delete and update go ahead on the collection
    stored under [data_<table>]: delete writes it back filtered, update
    merges into the matched record or answers 404. *)
Theorem unknown_table_rejected_by_list_and_create_only (table : string)
    (w : world) :
  table ∉ allowedTables →
  run (data_list table) w
  = (Replied (Response 400 (Json (JObj {[ "message" := JStr "Table không hợp lệ" ]}))), w)
  ∧ (∀ item, run (data_create e table item) w
       = (Replied (Response 400 (Json (JObj {[ "message" := JStr "Table không hợp lệ" ]}))), w))
  ∧ (∀ l id patch,
       stored_table table w = JArr l →
       Forall record l →
       (∃ w', run (data_delete table id) w = (Replied done_ok, w')
              ∧ kv w' = <[ "data_" +:+ table := JArr (without_id id l) ]> (kv w))
       ∧ (∀ i r, matched_record id l = Some (i, r) →
            ∃ w', run (data_update table id patch) w = (Replied done_ok, w')
                  ∧ kv w' = <[ "data_" +:+ table :=
                                 JArr (<[ i := JObj (patch ∪ spread r) ]> l) ]> (kv w))
       ∧ (matched_record id l = None →
            run (data_update table id patch) w = (Replied item_not_found, w))).
Proof.
  intros Hout%allowed_false.
  split; [by rewrite data_list_run, Hout|].
  split; [by intros item; apply data_create_rejected|].
  intros l id patch Hl Hrec.
  rewrite (data_delete_run table id l w Hl Hrec).
  rewrite (data_update_run table id patch l w Hl Hrec).
  split; [by eexists|]. split.
  - intros i r ->. by eexists.
  - by intros ->.
Qed.





(** *** Confinement of the record routes to their key *)

Lemma confined_ret {A} (k : string) (a : A) : confined k (mret a).
Proof. by split. Qed.

Lemma confined_respond {A} (k : string) (r : response) :
  confined k (respond (A:=A) r).
Proof. by split. Qed.

Lemma confined_eval {A} (k : string) (r : result A) : confined k (eval r).
Proof. split; intros; by destruct r. Qed.

Lemma confined_get (k : string) : confined k (redis_get k).
Proof.
  split; [done|]. intros w1 w2 Hk. unfold redis_get. simpl. by rewrite Hk.
Qed.

Lemma confined_set (k : string) (v : json) : confined k (redis_set k v).
Proof.
  split.
  - intros w. split; [|done]. intros k' Hk'. simpl. by rewrite lookup_insert_ne.
  - intros w1 w2 _. simpl. by rewrite !lookup_insert_eq.
Qed.

Lemma confined_bind {A B} (k : string) (h : handler A) (f : A → handler B) :
  confined k h → (∀ a, confined k (f a)) → confined k (h ≫= f).
Proof.
  intros [Hframe Hdep] Hf. split.
  - intros w. rewrite bind_eq. specialize (Hframe w).
    destruct (h w) as [[a|x|r|] w']; simpl in *; try done.
    destruct (Hf a) as [Hframe' _]. specialize (Hframe' w').
    destruct Hframe as [Hkv Hout], Hframe' as [Hkv' Hout'].
    split; [|congruence]. intros k' Hk'. rewrite Hkv' by done. by apply Hkv.
  - intros w1 w2 Hk. rewrite !bind_eq. specialize (Hdep w1 w2 Hk).
    destruct (h w1) as [s1 w1'], (h w2) as [s2 w2']. simpl in Hdep.
    destruct Hdep as [-> Hk'].
    destruct s2 as [a|x|r|]; simpl; try done.
    destruct (Hf a) as [_ Hdep']. by apply Hdep'.
Qed.

Lemma confined_data_api (q : data_request) :
  confined (data_key (table_of q)) (data_api e q).
Proof.
  destruct q as [t|t item|t id patch|t id]; simpl.
  - unfold data_list. destruct (allowed t); simpl.
    + apply confined_bind; [apply confined_get|]. intros v. apply confined_respond.
    + apply confined_respond.
  - unfold data_create. destruct (allowed t); simpl.
    + apply confined_bind; [apply confined_get|]. intros v.
      apply confined_bind; [apply confined_eval|]. intros l.
      apply confined_bind; [apply confined_set|]. intros _. apply confined_respond.
    + apply confined_respond.
  - unfold data_update.
    apply confined_bind; [apply confined_get|]. intros v.
    apply confined_bind; [apply confined_eval|]. intros l.
    apply confined_bind; [apply confined_eval|]. intros [i|].
    + apply confined_bind; [apply confined_set|]. intros _. apply confined_respond.
    + apply confined_respond.
  - unfold data_delete.
    apply confined_bind; [apply confined_get|]. intros v.
    apply confined_bind; [apply confined_eval|]. intros l.
    apply confined_bind; [apply confined_eval|]. intros l'.
    apply confined_bind; [apply confined_set|]. intros _. apply confined_respond.
Qed.

Lemma confined_run (k : string) (h : handler Empty_set) :
  confined k h →
  (∀ w, (∀ k', k' ≠ k → kv (run h w).2 !! k' = kv w !! k')
        ∧ outbox (run h w).2 = outbox w)
  ∧ (∀ w1 w2, kv w1 !! k = kv w2 !! k →
        (run h w1).1 = (run h w2).1
        ∧ kv (run h w1).2 !! k = kv (run h w2).2 !! k).
Proof.
  intros [Hframe Hdep]. split.
  - intros w. specialize (Hframe w). unfold run.
    by destruct (h w) as [[[]|x|r|] w'].
  - intros w1 w2 Hk. specialize (Hdep w1 w2 Hk). unfold run.
    destruct (h w1) as [s1 w1'], (h w2) as [s2 w2']. simpl in Hdep.
    destruct Hdep as [-> Hk']. by destruct s2 as [[]|x|r|].
Qed.

(** A collection that is a list stays a list under every request to the
    record API, so the lists the statements below assume are what the
    routes themselves leave in the store. *)
Lemma data_api_keeps_lists (q : data_request) (w : world) :
  (∃ l, stored_table (table_of q) w = JArr l) →
  ∃ l', stored_table (table_of q) (run (data_api e q) w).2 = JArr l'.
Proof.
  intros [l Hl].
  assert (∀ v, ∃ l', stored_table (table_of q) (with_table (table_of q) v w)
                     = JArr l') as Hwritten.
  { intros v. exists v. apply stored_with_table. }
  destruct q as [t|t item|t id patch|t id]; simpl in *.
  - rewrite data_list_run. destruct (allowed t); eauto.
  - rewrite (data_create_run t item l w Hl). destruct (allowed t); eauto.
  - unfold run, data_update. rewrite bind_eq. unfold redis_get at 1.
    fold (stored (data_key t) (JArr []) w). fold (stored_table t w).
    rewrite Hl. rewrite bind_eq. unfold eval at 1. simpl as_array. cbv iota.
    rewrite bind_eq. unfold eval at 1.
    destruct (js_findIndex (has_id id) l) as [[i|]|x]; simpl; eauto.
  - unfold run, data_delete. rewrite bind_eq. unfold redis_get at 1.
    fold (stored (data_key t) (JArr []) w). fold (stored_table t w).
    rewrite Hl. rewrite bind_eq. unfold eval at 1. simpl as_array. cbv iota.
    rewrite bind_eq. unfold eval at 1.
    destruct (js_filter (has_not_id id) l) as [l'|x]; simpl; eauto.
Qed.

Lemma data_key_not_auth (table : string) :
  data_key table ≠ "users" ∧ data_key table ≠ "pending".
Proof. by split. Qed.

(** C10.  Whatever the table name, a request to the record API works on
    the key [data_<table>], which is neither [users] nor [pending]: it
    leaves the value of every other key, [users] and [pending] among
    them, and the outbox as they were, and its response and the value it
    leaves under its key are the same on any two stores that agree on
    that key, whatever they hold under [users] and [pending]. *)
Theorem data_api_confined_to_its_key (q : data_request) (w : world) :
  let k := "data_" +:+ table_of q in
  (k ≠ "users" ∧ k ≠ "pending")
  ∧ kv (run (data_api e q) w).2 !! "users" = kv w !! "users"
  ∧ kv (run (data_api e q) w).2 !! "pending" = kv w !! "pending"
  ∧ (∀ k', k' ≠ k → kv (run (data_api e q) w).2 !! k' = kv w !! k')
  ∧ outbox (run (data_api e q) w).2 = outbox w
  ∧ (∀ w2, kv w2 !! k = kv w !! k →
       (run (data_api e q) w2).1 = (run (data_api e q) w).1
       ∧ kv (run (data_api e q) w2).2 !! k = kv (run (data_api e q) w).2 !! k)
  ∧ (∀ users pending,
       (run (data_api e q)
            (World (<[ "users" := users ]> (<[ "pending" := pending ]> (kv w)))
                   (outbox w))).1
       = (run (data_api e q) w).1).
Proof.
  intros k.
  destruct (confined_run _ _ (confined_data_api q)) as [Hframe Hdep].
  destruct (data_key_not_auth (table_of q)) as [Hu Hp].
  destruct (Hframe w) as [Hkv Hout].
  split; [done|].
  split; [by apply Hkv|]. split; [by apply Hkv|].
  split; [done|]. split; [done|].
  split; [by intros w2 Hk; apply Hdep|].
  intros users pending. apply Hdep. simpl.
  fold (data_key (table_of q)). by rewrite !lookup_insert_ne.
Qed.

End Execution.

(** ** The routes together *)

Section Coverage.
Context `{Platform}.
Variable e : env.

(** *** Rules for [wp] *)

Lemma wp_ret {A} (a : A) (Q : A → world → Prop) (R : world → Prop) (w : world) :
  Q a w → wp (mret a) Q R w.
Proof. done. Qed.

Lemma wp_bind {A B} (h : handler A) (f : A → handler B)
    (Q : B → world → Prop) (R : world → Prop) (w : world) :
  wp h (λ a, wp (f a) Q R) R w → wp (h ≫= f) Q R w.
Proof.
  unfold wp. rewrite bind_eq. by destruct (h w) as [[a|x|r|] w'].
Qed.

Lemma wp_eval {A} (r : result A) (Q : A → world → Prop) (R : world → Prop)
    (w : world) :
  match r with Ok a => Q a w | Throw _ => R w end → wp (eval r) Q R w.
Proof. by destruct r. Qed.

Lemma wp_respond {A} (r : response) (Q : A → world → Prop)
    (R : world → Prop) (w : world) :
  R w → wp (respond r) Q R w.
Proof. done. Qed.

Lemma wp_outside_model {A} (Q : A → world → Prop) (R : world → Prop)
    (w : world) :
  R w → wp outside_model Q R w.
Proof. done. Qed.

Lemma wp_get (k : string) (Q : json → world → Prop) (R : world → Prop)
    (w : world) :
  Q (default JNull (kv w !! k)) w → wp (redis_get k) Q R w.
Proof. done. Qed.

Lemma wp_set (k : string) (v : json) (Q : unit → world → Prop)
    (R : world → Prop) (w : world) :
  Q tt (World (<[ k := v ]> (kv w)) (outbox w)) → wp (redis_set k v) Q R w.
Proof. done. Qed.

Lemma wp_sendMail (m : mail) (Q : unit → world → Prop) (R : world → Prop)
    (w : world) :
  R w → Q tt (World (kv w) (outbox w ++ [m])) → wp (sendMail e m) Q R w.
Proof. intros HR HQ. unfold wp, sendMail. by destruct (mail_failure e). Qed.

Lemma wp_try_catch {A} (h : handler A) (k : exn → handler A)
    (Q : A → world → Prop) (R : world → Prop) (w : world) :
  wp h Q (λ w', R w' ∧ ∀ x, wp (k x) Q R w') w → wp (try_catch h k) Q R w.
Proof.
  unfold wp, try_catch. destruct (h w) as [[a|x|r|] w']; try tauto.
  intros [_ Hk]. apply Hk.
Qed.

Lemma wp_readUsers (Q : json → world → Prop) (R : world → Prop) (w : world) :
  Q (stored_users w) w → wp readUsers Q R w.
Proof. done. Qed.

Lemma wp_readPending (Q : gmap string json → world → Prop)
    (R : world → Prop) (w : world) :
  (∀ pend, stored_pending w = JObj pend → Q pend w) → R w →
  wp readPending Q R w.
Proof.
  intros HQ HR. unfold wp, readPending. rewrite bind_eq. simpl.
  fold (stored "pending" (JObj ∅) w). fold (stored_pending w).
  destruct (stored_pending w) eqn:Hp; try done. by apply HQ.
Qed.

Lemma wp_run (h : handler Empty_set) (R : world → Prop) (w : world) :
  wp h (λ _ _, False) R w → R (run h w).2.
Proof. unfold wp, run. by destruct (h w) as [[[]|x|r|] w']. Qed.

(** One step of a handler under [wp]. *)
Ltac wp_step :=
  lazymatch goal with
  | |- wp (_ ≫= _) _ _ _ => apply wp_bind
  | |- wp readUsers _ _ _ => apply wp_readUsers
  | |- wp readPending _ _ _ => apply wp_readPending; [intros ? ?|]
  | |- wp (eval ?r) _ _ _ => apply wp_eval; destruct r eqn:?
  | |- wp (json_reply _ _) _ _ _ => apply wp_respond
  | |- wp (text_reply _ _) _ _ _ => apply wp_respond
  | |- wp (redis_get _) _ _ _ => apply wp_get
  | |- wp (redis_set _ _) _ _ _ => apply wp_set
  | |- wp (saveUsers _) _ _ _ => apply wp_set
  | |- wp (savePending _) _ _ _ => apply wp_set
  | |- wp (sendMail _ _) _ _ _ => apply wp_sendMail
  | |- wp (if ?b then _ else _) _ _ _ => destruct b eqn:?
  | |- wp (match ?x with _ => _ end) _ _ _ => destruct x eqn:?
  end.

(** *** What the authentication routes can write

    Each route is followed through all its branches once, for an
    arbitrary invariant of the store: [login] writes nothing, [register]
    writes an object under [pending] and sends a mail, [approve] writes
    a list under [users] and an object under [pending], [forgot] writes
    a list under [users] and sends a mail. *)

Lemma login_preserves (I : world → Prop) (req : gmap string json) (w : world) :
  I w → I (run (login e req) w).2.
Proof.
  intros HI. apply wp_run. unfold login. cbv zeta. repeat (wp_step; auto).
Qed.

Lemma register_preserves (I : world → Prop) (req : gmap string json)
    (w : world) :
  survives_pending I → survives_mail I →
  I w → I (run (register e req) w).2.
Proof.
  intros Hpending Hmail HI. apply wp_run.
  unfold register. apply wp_try_catch. cbv zeta.
  assert (∀ w', I w' → I w' ∧ ∀ x,
            wp (json_reply (A:=Empty_set) 500
                  (JObj (<[ "message" := JStr "Lỗi đăng ký" ]>
                         {[ "error" := JStr (exn_message x) ]})))
               (λ _ _, False) I w') as Hcatch by (by split).
  repeat (wp_step; auto).
Qed.

Lemma approve_preserves (I : world → Prop) (token : option string)
    (w : world) :
  survives_users I → survives_pending I →
  I w → I (run (approve token) w).2.
Proof.
  intros Husers Hpending HI. apply wp_run.
  unfold approve. cbv zeta. repeat (wp_step; auto).
Qed.

Lemma forgot_preserves (I : world → Prop) (req : gmap string json)
    (w : world) :
  survives_users I → survives_mail I →
  I w → I (run (forgot e req) w).2.
Proof.
  intros Husers Hmail HI. apply wp_run.
  unfold forgot. cbv zeta. repeat (wp_step; auto).
Qed.

Lemma auth_api_preserves (I : world → Prop) (q : auth_request) (w : world) :
  survives_users I → survives_pending I → survives_mail I →
  I w → I (run (auth_api e q) w).2.
Proof.
  intros Husers Hpending Hmail HI. destruct q as [req|token|req|req]; simpl.
  - by apply register_preserves.
  - by apply approve_preserves.
  - by apply login_preserves.
  - by apply forgot_preserves.
Qed.

Lemma stored_other_key (k k' : string) (d v : json) (w : world) :
  k' ≠ k →
  stored k d (World (<[ k' := v ]> (kv w)) (outbox w)) = stored k d w.
Proof. intros Hk. unfold stored. simpl. by rewrite lookup_insert_ne. Qed.

Lemma stored_same_key (k : string) (d v : json) (w : world) :
  js_truthy (Some v) = true →
  stored k d (World (<[ k := v ]> (kv w)) (outbox w)) = v.
Proof.
  intros Hv. unfold stored, js_or. cbn [kv]. rewrite lookup_insert_eq.
  change (default JNull (Some v)) with v. by rewrite Hv.
Qed.

(** X1.  Whatever the request and the store, an authentication route
    leaves every key other than [users] and [pending], hence every
    collection of the record API, as it was.  Moreover [register] never
    writes [users], [forgot] never writes [pending], [approve] sends no
    mail, and [login] changes nothing at all, also when it throws. *)
Theorem auth_api_footprint (q : auth_request) (w : world) :
  (∀ k, k ≠ "users" → k ≠ "pending" →
     kv (run (auth_api e q) w).2 !! k = kv w !! k)
  ∧ (∀ table, stored_table table (run (auth_api e q) w).2
              = stored_table table w)
  ∧ match q with
    | Register _ => kv (run (auth_api e q) w).2 !! "users" = kv w !! "users"
    | Approve _ => outbox (run (auth_api e q) w).2 = outbox w
    | Login _ => (run (auth_api e q) w).2 = w
    | Forgot _ => kv (run (auth_api e q) w).2 !! "pending" = kv w !! "pending"
    end.
Proof.
  assert (∀ k, k ≠ "users" → k ≠ "pending" →
            kv (run (auth_api e q) w).2 !! k = kv w !! k) as Hframe.
  { intros k Hu Hp.
    apply (auth_api_preserves (λ w', kv w' !! k = kv w !! k)); [| | |done].
    - intros w' l Hw'. simpl. by rewrite lookup_insert_ne.
    - intros w' p Hw'. simpl. by rewrite lookup_insert_ne.
    - by intros w' m Hw'. }
  split; [done|]. split.
  - intros table. unfold stored_table, stored.
    destruct (data_key_not_auth table) as [Hu Hp]. by rewrite Hframe.
  - destruct q as [req|token|req|req]; simpl.
    + apply (register_preserves (λ w', kv w' !! "users" = kv w !! "users"));
        [| |done].
      * intros w' p Hw'. simpl. by rewrite lookup_insert_ne.
      * by intros w' m Hw'.
    + apply (approve_preserves (λ w', outbox w' = outbox w)); [| |done].
      * by intros w' l Hw'.
      * by intros w' p Hw'.
    + by apply (login_preserves (λ w', w' = w)).
    + apply (forgot_preserves (λ w', kv w' !! "pending" = kv w !! "pending"));
        [| |done].
      * intros w' l Hw'. simpl. by rewrite lookup_insert_ne.
      * by intros w' m Hw'.
Qed.

(** X2.  Whatever the request, an authentication route leaves a list
    under [users] when there was one, and an object under [pending]
    when there was one. *)
Theorem auth_api_keeps_shapes (q : auth_request) (w : world) :
  (users_listed w → users_listed (run (auth_api e q) w).2)
  ∧ (pending_mapped w → pending_mapped (run (auth_api e q) w).2).
Proof.
  split; apply auth_api_preserves.
  - intros w' l _. exists l. by apply stored_same_key.
  - intros w' p [l Hl]. exists l. unfold stored_users.
    by rewrite stored_other_key.
  - by intros w' m Hw'.
  - intros w' l [p Hp]. exists p. unfold stored_pending.
    by rewrite stored_other_key.
  - intros w' p _. exists p. by apply stored_same_key.
  - by intros w' m Hw'.
Qed.

(** *** Soundness of the store *)

Lemma js_find_lookup (p : json → result bool) (l : list json) (i : nat)
    (x : json) :
  js_find p l = Ok (Some (i, x)) → l !! i = Some x.
Proof.
  unfold js_find. destruct (js_findIndex p l) as [[j|]|]; simpl; try done.
  destruct (l !! j) eqn:Hj; simpl; [|done]. by intros [= <- <-].
Qed.

Lemma find_user_lookup (users : json) (email : jsval) (i : nat) (u : json) :
  find_user users email = Ok (Some (i, u)) →
  ∃ l, users = JArr l ∧ l !! i = Some u.
Proof.
  unfold find_user. destruct users; simpl; try done.
  intros Hf%js_find_lookup. eauto.
Qed.

Lemma sound_mail (w : world) (m : mail) :
  sound w → sound (World (kv w) (outbox w ++ [m])).
Proof. done. Qed.

Lemma sound_set_pending (w : world) (p : gmap string json) :
  sound w → map_Forall (λ _ d, well_formed d) p →
  sound (World (<[ "pending" := JObj p ]> (kv w)) (outbox w)).
Proof.
  intros (us & pend & Hus & Hwf & _ & _) Hp. exists us, p.
  unfold stored_users, stored_pending.
  rewrite (stored_other_key "users") by done. by rewrite stored_same_key.
Qed.

Lemma sound_set_users (w : world) (l : list json) :
  sound w → Forall well_formed l →
  sound (World (<[ "users" := JArr l ]> (kv w)) (outbox w)).
Proof.
  intros (us & pend & _ & _ & Hpend & Hp) Hl. exists l, pend.
  unfold stored_users, stored_pending.
  rewrite (stored_other_key "pending") by done. by rewrite stored_same_key.
Qed.

Lemma well_formed_insert (k : string) (v : json) (m : gmap string json) :
  k ≠ "email" → well_formed (JObj m) → well_formed (JObj (<[ k := v ]> m)).
Proof.
  intros Hk [s Hs]. exists s. unfold user_email, field in *.
  by rewrite lookup_insert_ne.
Qed.

Lemma well_formed_email (s : string) (m : gmap string json) :
  well_formed (JObj (<[ "email" := JStr s ]> m)).
Proof. exists s. unfold user_email, field. by rewrite lookup_insert_eq. Qed.

Lemma register_keeps_sound (req : gmap string json) (w : world) :
  proper (Register req) → sound w → sound (run (register e req) w).2.
Proof.
  intros Hproper Hs. apply wp_run. unfold register. apply wp_try_catch.
  cbv zeta.
  assert (∀ w', sound w' → sound w' ∧ ∀ x,
            wp (json_reply (A:=Empty_set) 500
                  (JObj (<[ "message" := JStr "Lỗi đăng ký" ]>
                         {[ "error" := JStr (exn_message x) ]})))
               (λ _ _, False) sound w') as Hcatch by (by split).
  destruct (req !! "email") as [v|] eqn:Hemail; last first.
  { simpl. rewrite orb_true_r. simpl. by apply wp_respond, Hcatch. }
  destruct (Hproper v Hemail) as [s ->].
  wp_step; [by apply wp_respond, Hcatch|].
  do 4 wp_step; [|by apply Hcatch].
  wp_step; [by apply wp_respond, Hcatch|].
  do 2 wp_step; [|by apply Hcatch].
  wp_step. wp_step; [|by apply Hcatch].
  destruct Hs as (us & pend' & Hus & Hwf & Hpend & Hp).
  assert (pend' = pend) as -> by congruence.
  match goal with
  | |- wp (savePending ?p ≫= _) _ _ _ =>
      assert (sound (World (<[ "pending" := JObj p ]> (kv w)) (outbox w)))
        as Hs1
  end.
  { apply sound_set_pending; [by exists us, pend|].
    apply map_Forall_insert_2; [|done]. simpl.
    do 3 (apply well_formed_insert; [done|]). apply well_formed_email. }
  wp_step. wp_step.
  do 2 wp_step; [|by apply Hcatch].
  do 2 wp_step; [|by apply Hcatch].
  wp_step. wp_step; [by apply Hcatch|].
  apply wp_respond. by apply Hcatch, sound_mail.
Qed.

Lemma approve_keeps_sound (token : option string) (w : world) :
  proper (Approve token) → sound w → sound (run (approve token) w).2.
Proof.
  intros Hproper Hs. apply wp_run. unfold approve.
  destruct token as [t|]; [|by apply wp_respond].
  simpl in Hproper. cbv zeta. change (default "" (Some t)) with t.
  wp_step; [by apply wp_respond|].
  wp_step. wp_step; [|done].
  wp_step; [by apply wp_respond|].
  do 4 wp_step; [|done].
  do 4 wp_step. apply wp_respond.
  destruct Hs as (us & pend' & Hus & Hwf & Hpend & Hp).
  assert (pend' = pend) as -> by congruence.
  assert (a = us) as ->.
  { rewrite Hus in *. simpl in *. congruence. }
  apply (sound_set_pending
           (World (<[ "users" := JArr _ ]> (kv w)) (outbox w)));
    [apply sound_set_users; [by exists us, pend|] | by apply map_Forall_delete].
  apply Forall_app. split; [done|]. apply Forall_singleton.
  apply well_formed_insert; [done|].
  unfold js_lookup in *. destruct (pend !! t) as [d|] eqn:Hd.
  - apply Hp in Hd. destruct (well_formed_object d Hd) as [m ->]. done.
  - by rewrite bool_decide_false in * by done.
Qed.

Lemma forgot_keeps_sound (req : gmap string json) (w : world) :
  sound w → sound (run (forgot e req) w).2.
Proof.
  intros Hs. apply wp_run. unfold forgot. cbv zeta.
  do 4 wp_step; [|done].
  wp_step; [|by apply wp_respond].
  wp_step. wp_step; [by apply wp_respond|].
  do 2 wp_step; [|done].
  do 2 wp_step; [|done].
  do 2 wp_step; [|done].
  destruct Hs as (us & pend & Hus & Hwf & Hpend & Hp).
  match goal with
  | |- wp (saveUsers (JArr ?l) ≫= _) _ _ _ =>
      assert (sound (World (<[ "users" := JArr l ]> (kv w)) (outbox w)))
        as Hs1
  end.
  { apply sound_set_users; [by exists us, pend|].
    match goal with
    | Hf : find_user _ _ = Ok _ |- _ =>
        apply find_user_lookup in Hf as (l & Hl & Hi)
    end.
    assert (l = us) as -> by congruence.
    assert (a2 = us) as ->.
    { rewrite Hus in *. simpl in *. congruence. }
    apply Forall_insert; [done|].
    assert (well_formed j) as Hj.
    { rewrite Forall_forall in Hwf. apply Hwf.
      by apply list_elem_of_lookup_2 in Hi. }
    destruct (well_formed_object j Hj) as [m ->]. simpl in *.
    match goal with
    | Hset : Ok _ = Ok _ |- _ => injection Hset as <-
    end.
    by apply well_formed_insert. }
  do 4 wp_step; [done|]. apply wp_respond. by apply sound_mail.
Qed.

(** X3.  A sound store stays sound under every login and reset request,
    under every registration whose [email], when present, is a string,
    and under every approval whose token is not the name of a member of
    [Object.prototype]: the users remain records with a string [email],
    and so do the pending drafts. *)
Theorem auth_api_keeps_sound (q : auth_request) (w : world) :
  proper q → sound w → sound (run (auth_api e q) w).2.
Proof.
  intros Hproper Hs. destruct q as [req|token|req|req]; simpl.
  - by apply register_keeps_sound.
  - by apply approve_keeps_sound.
  - by apply login_preserves.
  - by apply forgot_keeps_sound.
Qed.

(** *** What login returns *)

(** X4.  Whatever the store holds, a login that answers 200 answers
    with a token and a user record that has no [password] field. *)
Theorem login_never_returns_password (req : gmap string json) (w w' : world)
    (r : response) :
  run (login e req) w = (Replied r, w') →
  status r = 200%Z →
  ∃ token user,
    payload r = Json (JObj (<[ "token" := JStr token ]>
                            {[ "user" := JObj user ]}))
    ∧ user !! "password" = None.
Proof.
  unfold run, login. cbv zeta.
  rewrite bind_eq, readUsers_eq. rewrite bind_eq. unfold eval at 1.
  destruct (find_user _ _) as [[[i u]|]|x]; [| |done].
  - destruct (negb (js_truthy (Some u))) eqn:Htruthy.
    + by intros [= <- <-].
    + rewrite bind_eq. unfold eval at 1.
      destruct (js_get u "approved") as [approved|x]; [|done].
      destruct (negb (js_truthy approved)); [by intros [= <- <-]|].
      rewrite bind_eq. unfold eval at 1.
      destruct (js_get u "password") as [hash|x]; [|done].
      rewrite bind_eq. unfold eval at 1.
      destruct (js_bcrypt_compare _ _) as [[|]|x]; [| |done].
      * cbn [negb]. rewrite bind_eq. unfold eval at 1.
        destruct (js_get u "email") as [uemail|x]; [|done].
        intros [= <- <-] _. eexists _, _. split.
        -- unfold safeUser. apply negb_false_iff in Htruthy.
           simpl in Htruthy. by rewrite Htruthy.
        -- apply lookup_delete_eq.
      * by intros [= <- <-].
  - by intros [= <- <-].
Qed.

(** *** Requests without a usable email *)

Lemma find_user_no_email (us : list json) (email : jsval) :
  (∀ s, email ≠ Some (JStr s)) →
  Forall well_formed us →
  find_user (JArr us) email =
  match us with
  | [] => Ok None
  | _ :: _ => Throw (TypeError "toLowerCase is not a function")
  end.
Proof.
  intros Hno Hwf. destruct Hwf as [|u us Hu _]; [done|].
  destruct (well_formed_object u Hu) as [m ->]. destruct Hu as [s Hs].
  unfold find_user, js_find, js_findIndex, same_email. simpl.
  unfold user_email, field in Hs.
  destruct (m !! "email") as [[| | |s'| |]|]; try done. simpl.
  destruct email as [[| | |s''| |]|]; try done. by destruct (Hno s'').
Qed.

(** X5.  When the body of a login or of a reset has no [email], or one
    that is not a string, the answer is 404 on an empty user list; on a
    non-empty list of well-formed users the comparison throws a
    [TypeError] that nothing catches, and the store is left as it was. *)
Theorem login_and_forgot_without_email (req : gmap string json) (w : world)
    (us : list json) :
  (∀ s, req !! "email" ≠ Some (JStr s)) →
  stored_users w = JArr us →
  Forall well_formed us →
  (us = [] →
     run (login e req) w = (Replied not_found, w)
     ∧ run (forgot e req) w = (Replied not_found, w))
  ∧ (us ≠ [] →
     ∃ x, run (login e req) w = (Unhandled (TypeError x), w)
          ∧ run (forgot e req) w = (Unhandled (TypeError x), w)).
Proof.
  intros Hno Hst Hwf.
  assert (run (login e req) w
          = match us with
            | [] => (Replied not_found, w)
            | _ :: _ =>
                (Unhandled (TypeError "toLowerCase is not a function"), w)
            end) as Hlogin.
  { unfold run, login. cbv zeta. rewrite bind_eq, readUsers_eq, Hst.
    rewrite bind_eq. unfold eval at 1.
    rewrite find_user_no_email by done. by destruct us. }
  assert (run (forgot e req) w
          = match us with
            | [] => (Replied not_found, w)
            | _ :: _ =>
                (Unhandled (TypeError "toLowerCase is not a function"), w)
            end) as Hforgot.
  { unfold run, forgot. cbv zeta. rewrite bind_eq, readUsers_eq, Hst.
    rewrite bind_eq. unfold eval at 1.
    rewrite find_user_no_email by done. by destruct us. }
  rewrite Hlogin, Hforgot. split.
  - by intros ->.
  - intros Hne. destruct us as [|u us']; [done|]. by eexists.
Qed.

(** *** Registrations with fields that are not strings *)

(** X6.  A registration whose [email] is a truthy value that is not a
    string is answered 500 when the user list is not empty, the
    comparison having thrown before anything is stored; on an empty user
    list nothing compares the email, and the registration goes through:
    the draft is stored with that email, and the store is no longer
    sound. *)
Theorem register_with_non_string_email (req : gmap string json) (w : world)
    (name p : string) (v : json) (us : list json) (pend : gmap string json) :
  req !! "name" = Some (JStr name) → name ≠ "" →
  req !! "email" = Some v → js_truthy (Some v) = true → (∀ s, v ≠ JStr s) →
  req !! "password" = Some (JStr p) → p ≠ "" →
  stored_users w = JArr us →
  Forall well_formed us →
  stored_pending w = JObj pend →
  (us ≠ [] →
     ∃ x, run (register e req) w
          = (Replied (registration_failed (TypeError x)), w))
  ∧ (us = [] → mail_failure e = None → printable v →
     ∃ w' d, run (register e req) w = (Replied registered, w')
             ∧ stored_pending w'
               = JObj (<[ jwt_sign {[ "email" := v ]} (now e) := JObj d ]> pend)
             ∧ field (JObj d) "email" = Some v
             ∧ ¬ sound w').
Proof.
  intros Hn Hn' Hem Hv Hns Hp Hp' Hst Hwf Hpend.
  assert (∀ s, Some v ≠ Some (JStr s)) as Hno by (intros s [= ->]; by eapply Hns).
  unfold run, register, try_catch. rewrite Hn, Hem, Hp, Hv.
  rewrite !truthy_string by done. cbn [negb orb].
  rewrite bind_eq, readUsers_eq, Hst.
  rewrite bind_eq. unfold eval at 1. rewrite find_user_no_email by done.
  split.
  - intros Hne. destruct us as [|u us']; [done|]. by eexists.
  - intros -> Hmail [sv Hsv]. simpl.
    rewrite bind_eq. unfold eval at 1.
    rewrite bind_eq, (readPending_eq w pend Hpend).
    rewrite bind_eq. unfold savePending, redis_set at 1.
    rewrite bind_eq. unfold eval at 1.
    rewrite bind_eq. unfold eval at 1.
    rewrite Hsv.
    rewrite bind_eq. unfold sendMail. rewrite Hmail.
    eexists _, _. split; [reflexivity|].
    split; [unfold stored_pending; by apply stored_same_key|].
    split; [simpl; by do 3 (rewrite lookup_insert_ne by done); rewrite lookup_insert_eq|].
    intros (us' & pend' & _ & _ & Hpend' & Hall).
    unfold stored_pending, stored, js_or in Hpend'. cbn [kv] in Hpend'.
    rewrite lookup_insert_eq in Hpend'. injection Hpend' as <-.
    destruct (Hall _ _ (lookup_insert_eq _ _ _)) as [s Hs].
    unfold user_email, field in Hs.
    do 3 (rewrite lookup_insert_ne in Hs by done).
    rewrite lookup_insert_eq in Hs.
    destruct v; try done. by eapply Hns.
Qed.

(** X7.  A registration with a fresh email whose [password] is a truthy
    value that is not a string is answered 500: [bcrypt.hash] rejects
    it before a draft is built, so nothing is stored and no mail goes
    out.  The message of the answer is that of the library's error,
    which names the type of the password and the type of the cost:
    "number, number" for a number, "boolean, number" for [true],
    "object, number" for an array or an object. *)
Theorem register_with_non_string_password (req : gmap string json)
    (w : world) (n v : json) (em : string) (us : list json) :
  req !! "name" = Some n → js_truthy (Some n) = true →
  req !! "email" = Some (JStr em) → em ≠ "" →
  req !! "password" = Some v → js_truthy (Some v) = true → (∀ s, v ≠ JStr s) →
  stored_users w = JArr us →
  Forall well_formed us →
  matched_user em us = None →
  run (register e req) w
  = (Replied (registration_failed
                (IllegalArguments (js_typeof (Some v)) "number")), w)
  ∧ js_typeof (Some v)
    = match v with
      | JBool _ => "boolean"
      | JNum _ => "number"
      | _ => "object"
      end
  ∧ payload (registration_failed
               (IllegalArguments (js_typeof (Some v)) "number"))
    = Json (JObj (<[ "message" := JStr "Lỗi đăng ký" ]>
         {[ "error" := JStr ("Illegal arguments: " +:+ js_typeof (Some v)
                             +:+ ", number") ]})).
Proof.
  intros Hn Hn' Hem Hem' Hp Hv Hns Hst Hwf Hno.
  split; [|split; [destruct v; try done; by destruct (Hns s)|]];
    [|unfold registration_failed; simpl; by rewrite exn_message_illegal].
  unfold run, register, try_catch. rewrite Hn, Hem, Hp, Hn', Hv.
  rewrite truthy_string by done. cbn [negb orb].
  rewrite bind_eq, readUsers_eq, Hst.
  rewrite bind_eq. unfold eval at 1. rewrite find_user_matched, Hno by done.
  simpl. rewrite bind_eq. unfold eval at 1.
  destruct v; try done. by destruct (Hns s).
Qed.

(** *** Password resets *)

(** X8.  When the mail of a reset cannot be sent, the matched user's
    password has been replaced all the same: the exception is not
    caught, the client gets no answer, no mail has gone out, and the
    stored hash is that of a temporary password nobody was told. *)
Theorem forgot_mail_failure_keeps_reset (w : world) (us : list json)
    (em msg : string) (req : gmap string json) (i : nat) (u : json) :
  stored_users w = JArr us →
  Forall well_formed us →
  req !! "email" = Some (JStr em) →
  matched_user em us = Some (i, u) →
  mail_failure e = Some msg →
  ∃ w', run (forgot e req) w = (Unhandled (TransportError msg), w')
        ∧ stored_users w' = JArr (<[ i := reset_user e u ]> us)
        ∧ field (reset_user e u) "password"
          = Some (JStr (bcrypt_hash (salt e) (temporary_password e)))
        ∧ outbox w' = outbox w.
Proof.
  intros Hst Hwf Hem Hm Hmail.
  rewrite (forgot_run e w us em req Hst Hwf Hem), Hm, Hmail.
  eexists. split; [reflexivity|].
  split; [unfold stored_users; by apply stored_same_key|].
  split; [apply lookup_insert_eq|done].
Qed.

Lemma has_email_reset (em : string) (u : json) :
  well_formed u → has_email em (reset_user e u) = has_email em u.
Proof.
  intros Hu. destruct (well_formed_object u Hu) as [m ->].
  unfold has_email, user_email, reset_user, field. simpl.
  by rewrite lookup_insert_ne.
Qed.

Lemma matched_user_insert (em : string) (us : list json) (i : nat)
    (u u' : json) :
  matched_user em us = Some (i, u) →
  has_email em u' = true →
  matched_user em (<[ i := u' ]> us) = Some (i, u').
Proof.
  unfold matched_user. intros (Hi & Hu & Hfirst)%list_find_Some Hu'.
  apply list_find_Some. split; [|split].
  - apply list_lookup_insert_eq. by apply lookup_lt_Some in Hi.
  - by rewrite Hu'.
  - intros j y Hj Hlt. rewrite list_lookup_insert_ne in Hj by lia.
    by apply (Hfirst j).
Qed.

(** X9.  After a reset whose mail was delivered, an approved user logs
    in with the temporary password of the mail. *)
Theorem forgot_then_login (w : world) (us : list json) (em : string)
    (req req' : gmap string json) (i : nat) (u : json) :
  stored_users w = JArr us →
  Forall well_formed us →
  req !! "email" = Some (JStr em) →
  matched_user em us = Some (i, u) →
  js_truthy (field u "approved") = true →
  mail_failure e = None →
  req' !! "email" = Some (JStr em) →
  req' !! "password" = Some (JStr (temporary_password e)) →
  (run (forgot e req) w).1 = Replied temporary_sent
  ∧ last (outbox (run (forgot e req) w).2) = Some (temporary_mail e em)
  ∧ (run (login e req') (run (forgot e req) w).2).1
    = Replied (logged_in e (reset_user e u)).
Proof.
  intros Hst Hwf Hem Hm Happ Hmail Hem' Hp'.
  rewrite (forgot_run e w us em req Hst Hwf Hem), Hm, Hmail. cbn [fst snd].
  split; [done|]. split; [apply last_snoc|].
  assert (well_formed u) as Hu.
  { apply matched_user_Some in Hm as (Hi & _).
    rewrite Forall_forall in Hwf. apply Hwf.
    by apply list_elem_of_lookup_2 in Hi. }
  assert (has_email em u = true) as Hhas.
  { unfold matched_user in Hm. apply list_find_Some in Hm as (_ & Hu' & _).
    by apply Is_true_true. }
  rewrite (login_run e _ (<[ i := reset_user e u ]> us) em req'); [| |by apply Forall_insert; [|destruct (well_formed_object u Hu) as [m ->]; apply well_formed_insert] |done].
  - rewrite (matched_user_insert em us i u) by (by rewrite ?has_email_reset).
    destruct (well_formed_object u Hu) as [m ->]. simpl in *.
    rewrite lookup_insert_ne by done. rewrite Happ. simpl.
    rewrite Hp', lookup_insert_eq. simpl. by rewrite bcrypt_compare_hash.
  - unfold stored_users. by apply stored_same_key.
Qed.

(** *** Users that share an email *)

(** X10.  Login looks at the first stored user whose email matches:
    whatever users are stored after that one, also with the same email,
    the answer is the same. *)
Theorem login_ignores_later_users (w w2 : world) (us later : list json)
    (em : string) (req : gmap string json) (i : nat) (u : json) :
  stored_users w = JArr us →
  stored_users w2 = JArr (us ++ later) →
  Forall well_formed us →
  Forall well_formed later →
  req !! "email" = Some (JStr em) →
  matched_user em us = Some (i, u) →
  (run (login e req) w2).1 = (run (login e req) w).1.
Proof.
  intros Hst Hst2 Hwf Hwf2 Hem Hm.
  rewrite (login_run e w us em req Hst Hwf Hem).
  rewrite (login_run e w2 (us ++ later) em req Hst2); [|by apply Forall_app|done].
  unfold matched_user in *. rewrite (list_find_app_l _ _ _ _ _ Hm), Hm.
  destruct (negb _); [done|]. by destruct (js_bcrypt_compare _ _) as [[|]|].
Qed.

(** *** The record routes composed *)

Lemma id_string_number (n : Z) (item : gmap string json) :
  id_string (JObj (<[ "id" := JNum n ]> item)) = Some (number_toString n).
Proof. unfold id_string, field. by rewrite lookup_insert_eq. Qed.

Lemma time_value_safe (t : Z) : time_value t → safe_integer t.
Proof. unfold time_value, safe_integer. lia. Qed.

(** The id a create gives: the clock is a time value, which prints as
    its decimal numeral. *)
Lemma id_string_created (item : gmap string json) :
  id_string (JObj (<[ "id" := JNum (now e) ]> item)) = Some (pretty (now e)).
Proof.
  rewrite id_string_number.
  by rewrite (number_toString_safe _ (time_value_safe _ (now_time e))).
Qed.

Lemma record_created (n : Z) (item : gmap string json) :
  record (JObj (<[ "id" := JNum n ]> item)).
Proof. split; [by eexists|]. rewrite id_string_number. by eexists. Qed.

Lemma without_id_app (id : string) (l1 l2 : list json) :
  without_id id (l1 ++ l2) = without_id id l1 ++ without_id id l2.
Proof. apply filter_app. Qed.

Lemma without_id_unmatched (id : string) (l : list json) :
  matched_record id l = None → without_id id l = l.
Proof.
  intros Hno. rewrite matched_record_None in Hno. unfold without_id.
  induction l as [|x l IH]; [done|].
  rewrite filter_cons_True by (apply Hno; left).
  f_equal. apply IH. intros r Hr. apply Hno. by right.
Qed.

(** X11.  A create followed by a delete of the id the create assigned
    gives back the collection as it was, provided no record had that id
    before. *)
Theorem create_then_delete_round_trip (table : string)
    (item : gmap string json) (l : list json) (w : world) :
  table ∈ allowedTables →
  stored_table table w = JArr l →
  Forall record l →
  matched_record (pretty (now e)) l = None →
  (run (data_create e table item) w).1 = Replied done_ok
  ∧ (run (data_delete table (pretty (now e)))
         (run (data_create e table item) w).2).1 = Replied done_ok
  ∧ stored_table table
      (run (data_delete table (pretty (now e)))
           (run (data_create e table item) w).2).2
    = JArr l.
Proof.
  intros Hin%allowed_true Hl Hrec Hno.
  rewrite (data_create_run e table item l w Hl), Hin. cbn [fst snd].
  split; [done|].
  rewrite (data_delete_run table (pretty (now e))
             (l ++ [JObj (<[ "id" := JNum (now e) ]> item)]));
    [|apply stored_with_table
     |apply Forall_app; split; [done|apply Forall_singleton, record_created]].
  cbn [fst snd]. split; [done|]. rewrite stored_with_table. f_equal.
  rewrite without_id_app, without_id_unmatched by done.
  unfold without_id. rewrite filter_cons_False, filter_nil.
  - apply app_nil_r.
  - rewrite id_string_created. by intros Hne.
Qed.

(** X12.  Two creates that read the same millisecond give their records
    the same [id].  A delete of that id then removes both; an update of
    that id reaches the first of the two only. *)
Theorem creates_in_one_millisecond_share_id (table : string)
    (a b patch : gmap string json) (l : list json) (w : world) :
  table ∈ allowedTables →
  stored_table table w = JArr l →
  Forall record l →
  matched_record (pretty (now e)) l = None →
  let ra := JObj (<[ "id" := JNum (now e) ]> a) in
  let rb := JObj (<[ "id" := JNum (now e) ]> b) in
  let w2 := (run (data_create e table b) (run (data_create e table a) w).2).2 in
  stored_table table w2 = JArr (l ++ [ra; rb])
  ∧ id_string ra = id_string rb
  ∧ stored_table table (run (data_delete table (pretty (now e))) w2).2 = JArr l
  ∧ stored_table table (run (data_update table (pretty (now e)) patch) w2).2
    = JArr (l ++ [JObj (patch ∪ <[ "id" := JNum (now e) ]> a); rb]).
Proof.
  intros Hin%allowed_true Hl Hrec Hno ra rb w2.
  assert (stored_table table w2 = JArr (l ++ [ra; rb])) as Hw2.
  { unfold w2. rewrite (data_create_run e table a l w Hl), Hin. cbn [snd].
    rewrite (data_create_run e table b (l ++ [ra])), Hin
      by apply stored_with_table.
    cbn [snd]. rewrite stored_with_table. by rewrite <- app_assoc. }
  assert (Forall record (l ++ [ra; rb])) as Hrec2.
  { apply Forall_app. split; [done|].
    repeat apply Forall_cons_2; [apply record_created..|done]. }
  split; [done|]. split; [unfold ra, rb; by rewrite !id_string_created|]. split.
  - rewrite (data_delete_run table _ _ w2 Hw2 Hrec2). cbn [snd].
    rewrite stored_with_table. f_equal.
    rewrite without_id_app, without_id_unmatched by done.
    unfold without_id, ra, rb.
    rewrite !filter_cons_False, filter_nil
      by (rewrite id_string_created; by intros Hne).
    apply app_nil_r.
  - rewrite (data_update_run table _ patch _ w2 Hw2 Hrec2).
    assert (matched_record (pretty (now e)) (l ++ [ra; rb])
            = Some (length l, ra)) as ->.
    { unfold matched_record in *. rewrite list_find_app_r by done. simpl.
      rewrite decide_True by apply id_string_created.
      done. }
    cbn [snd]. rewrite stored_with_table. f_equal.
    rewrite insert_app_r_alt, Nat.sub_diag by done. done.
Qed.

Lemma record_without_id (id : string) (l : list json) :
  Forall record l → Forall record (without_id id l).
Proof.
  rewrite !Forall_forall. intros Hl r Hr. apply Hl.
  unfold without_id in Hr. by apply list_elem_of_filter in Hr as [_ ?].
Qed.

Lemma matched_record_without_id (id : string) (l : list json) :
  matched_record id (without_id id l) = None.
Proof.
  apply matched_record_None. intros r Hr.
  unfold without_id in Hr. by apply list_elem_of_filter in Hr as [? _].
Qed.

Lemma with_table_twice (table : string) (v v' : list json) (w : world) :
  with_table table v (with_table table v' w) = with_table table v w.
Proof. unfold with_table. simpl. by rewrite insert_insert_eq. Qed.

(** X13.  Delete is idempotent: after a delete of an id, a second delete
    of that id answers [{ok:true}] and leaves the store exactly as the
    first left it, and an update of that id answers 404. *)
Theorem delete_is_idempotent (table id : string)
    (patch : gmap string json) (l : list json) (w : world) :
  stored_table table w = JArr l →
  Forall record l →
  run (data_delete table id) (run (data_delete table id) w).2
  = (Replied done_ok, (run (data_delete table id) w).2)
  ∧ run (data_update table id patch) (run (data_delete table id) w).2
    = (Replied item_not_found, (run (data_delete table id) w).2).
Proof.
  intros Hl Hrec. rewrite (data_delete_run table id l w Hl Hrec). cbn [snd].
  split.
  - rewrite (data_delete_run table id (without_id id l));
      [|apply stored_with_table|by apply record_without_id].
    rewrite with_table_twice.
    by rewrite (without_id_unmatched id (without_id id l))
      by apply matched_record_without_id.
  - rewrite (data_update_run table id patch (without_id id l));
      [|apply stored_with_table|by apply record_without_id].
    by rewrite matched_record_without_id.
Qed.

Lemma matched_record_insert (id : string) (l : list json) (i : nat)
    (r r' : json) :
  matched_record id l = Some (i, r) →
  id_string r' = Some id →
  matched_record id (<[ i := r' ]> l) = Some (i, r').
Proof.
  unfold matched_record. intros (Hi & Hr & Hfirst)%list_find_Some Hr'.
  apply list_find_Some. split; [|split; [done|]].
  - apply list_lookup_insert_eq. by apply lookup_lt_Some in Hi.
  - intros j y Hj Hlt. rewrite list_lookup_insert_ne in Hj by lia.
    by apply (Hfirst j).
Qed.

(** X14.  Update is idempotent for a patch that leaves the string of the
    record's [id] as it was (a patch without an [id] field in
    particular): the same update once more answers [{ok:true}] and
    leaves the store exactly as the first left it. *)
Theorem update_is_idempotent (table id : string) (patch : gmap string json)
    (l : list json) (w : world) (i : nat) (r : json) :
  stored_table table w = JArr l →
  Forall record l →
  matched_record id l = Some (i, r) →
  id_string (JObj (patch ∪ spread r)) = Some id →
  run (data_update table id patch) (run (data_update table id patch) w).2
  = (Replied done_ok, (run (data_update table id patch) w).2).
Proof.
  intros Hl Hrec Hm Hid.
  rewrite (data_update_run table id patch l w Hl Hrec), Hm. cbn [snd].
  rewrite (data_update_run table id patch (<[ i := JObj (patch ∪ spread r) ]> l));
    [|apply stored_with_table
     |apply Forall_insert; [done|split; [by eexists|by rewrite Hid]]].
  rewrite (matched_record_insert id l i r) by done.
  rewrite with_table_twice, list_insert_insert_eq. cbn [spread].
  by rewrite (assoc_L (∪)), (idemp_L (∪)).
Qed.

(** X15.  An update whose body carries an [id] gives the record that id:
    the record is then known by the string of the new id, and, when the
    new string differs and no other record had the old one, an update of
    the old id answers 404. *)
Theorem update_can_change_id (table id id' : string)
    (patch patch' : gmap string json) (v : json)
    (l : list json) (w : world) (i : nat) (r : json) :
  stored_table table w = JArr l →
  Forall record l →
  matched_record id l = Some (i, r) →
  patch !! "id" = Some v →
  json_String v = Ok id' →
  id_string (JObj (patch ∪ spread r)) = Some id'
  ∧ stored_table table (run (data_update table id patch) w).2
    = JArr (<[ i := JObj (patch ∪ spread r) ]> l)
  ∧ (id' ≠ id →
     (∀ j x, l !! j = Some x → j ≠ i → id_string x ≠ Some id) →
     run (data_update table id patch') (run (data_update table id patch) w).2
     = (Replied item_not_found, (run (data_update table id patch) w).2)).
Proof.
  intros Hl Hrec Hm Hv Hs.
  assert (id_string (JObj (patch ∪ spread r)) = Some id') as Hid.
  { unfold id_string, field.
    by rewrite (lookup_union_Some_l _ _ _ _ Hv); simpl; rewrite Hs. }
  rewrite (data_update_run table id patch l w Hl Hrec), Hm. cbn [snd].
  split; [done|]. split; [apply stored_with_table|].
  intros Hne Honly.
  rewrite (data_update_run table id patch' (<[ i := JObj (patch ∪ spread r) ]> l));
    [|apply stored_with_table
     |apply Forall_insert; [done|split; [by eexists|by rewrite Hid]]].
  assert (matched_record id (<[ i := JObj (patch ∪ spread r) ]> l) = None)
    as ->; [|done].
  assert (i < length l)%nat as Hlt.
  { unfold matched_record in Hm. apply list_find_Some in Hm as (Hi & _).
    by apply lookup_lt_Some in Hi. }
  apply matched_record_None. intros x [j Hj]%list_elem_of_lookup_1.
  destruct (decide (j = i)) as [->|Hji].
  - rewrite list_lookup_insert_eq in Hj by done.
    injection Hj as <-. rewrite Hid. by intros [= ->].
  - rewrite list_lookup_insert_ne in Hj by done. by apply (Honly j).
Qed.

Lemma data_key_inj (t t' : string) : data_key t = data_key t' → t = t'.
Proof. unfold data_key. intros Heq. by simplify_eq/=. Qed.

(** X16.  A request to the record API on one table leaves the
    collection of every other table as it was, whatever the two table
    names are. *)
Theorem data_api_isolates_tables (q : data_request) (t' : string) (w : world) :
  t' ≠ table_of q →
  stored_table t' (run (data_api e q) w).2 = stored_table t' w.
Proof.
  intros Hne.
  destruct (confined_run _ _ (confined_data_api e q)) as [Hframe _].
  destruct (Hframe w) as [Hkv _]. unfold stored_table, stored.
  rewrite Hkv; [done|]. by intros Heq%data_key_inj.
Qed.

(** X17.  When the key of a table holds a truthy value that is not a
    list, list returns that value as it is, while create, update and
    delete throw a [TypeError] that nothing catches and write nothing. *)
Theorem record_routes_on_a_non_list (table id : string)
    (item patch : gmap string json) (w : world) :
  (∀ l, stored_table table w ≠ JArr l) →
  (table ∈ allowedTables →
     run (data_list table) w
     = (Replied (Response 200 (Json (stored_table table w))), w))
  ∧ ∃ x, (table ∈ allowedTables →
            run (data_create e table item) w = (Unhandled (TypeError x), w))
         ∧ run (data_update table id patch) w = (Unhandled (TypeError x), w)
         ∧ run (data_delete table id) w = (Unhandled (TypeError x), w).
Proof.
  intros Hno. split.
  - intros Hin%allowed_true. by rewrite data_list_run, Hin.
  - exists "not a function".
    assert (as_array (stored_table table w) = Throw (TypeError "not a function"))
      as Harr.
    { destruct (stored_table table w) eqn:Hv; try done. by destruct (Hno l). }
    split; [|split].
    + intros Hin%allowed_true. unfold run, data_create. rewrite Hin. cbn [negb].
      rewrite bind_eq. unfold redis_get at 1.
      fold (stored (data_key table) (JArr []) w). fold (stored_table table w).
      rewrite bind_eq. unfold eval at 1. by rewrite Harr.
    + unfold run, data_update.
      rewrite bind_eq. unfold redis_get at 1.
      fold (stored (data_key table) (JArr []) w). fold (stored_table table w).
      rewrite bind_eq. unfold eval at 1. by rewrite Harr.
    + unfold run, data_delete.
      rewrite bind_eq. unfold redis_get at 1.
      fold (stored (data_key table) (JArr []) w). fold (stored_table table w).
      rewrite bind_eq. unfold eval at 1. by rewrite Harr.
Qed.

(** *** The approval mail *)

(** X18.  A successful registration sends exactly one mail, to the
    configured administrator; the link in it is the base URL followed by
    the approval path and the token, and that token is the key under
    which the draft has just been stored. *)
Theorem register_mails_the_stored_token (w : world) (req : gmap string json)
    (name em p : string) (us : list json) (pend : gmap string json) :
  req !! "name" = Some (JStr name) → name ≠ "" →
  req !! "email" = Some (JStr em) → em ≠ "" →
  req !! "password" = Some (JStr p) → p ≠ "" →
  stored_users w = JArr us →
  Forall well_formed us →
  stored_pending w = JObj pend →
  matched_user em us = None →
  mail_failure e = None →
  ∃ token link pend',
    link = base_url e +:+ "/api/auth/approve?token=" +:+ token
    ∧ outbox (run (register e req) w).2
      = outbox w ++
        [ Mail (JStr <$> admin_email e)
               "Có tài khoản đăng ký mới cần duyệt"
               ("<p>" +:+ name +:+ " (" +:+ em +:+ ")</p><p>Duyệt: <a href="
                +:+ String (Ascii.ascii_of_nat 34) (link
                +:+ String (Ascii.ascii_of_nat 34) (">" +:+ link +:+ "</a></p>"))) ]
    ∧ stored_pending (run (register e req) w).2 = JObj pend'
    ∧ pend' !! token = Some (JObj (draft_of e name em p)).
Proof.
  intros Hn Hn' Hem Hem' Hp Hp' Hst Hwf Hpend Hno Hmail.
  rewrite (register_run e w req name em p us pend) by done.
  rewrite Hno, Hmail. cbn [snd outbox].
  exists (token_of e em). eexists _, _. split; [reflexivity|].
  split; [done|]. split; [apply stored_pending_with_draft|].
  apply lookup_insert_eq.
Qed.

(** *** One approval *)

(** X21.  An approval of a token that the pending mapping holds answers
    200, appends the draft to the users after all those already there,
    with [approved] set to true and every other field as the draft had
    it, removes that token and no other from the pending mapping, and
    sends no mail. *)
Theorem approve_promotes_one_draft (w : world) (t : string) (us : list json)
    (pend d : gmap string json) :
  t ≠ "" →
  pend !! t = Some (JObj d) →
  stored_pending w = JObj pend →
  stored_users w = JArr us →
  (run (approve (Some t)) w).1 = Replied approved_ok
  ∧ stored_users (run (approve (Some t)) w).2
    = JArr (us ++ [JObj (<[ "approved" := JBool true ]> d)])
  ∧ (∀ k, k ≠ "approved" →
       field (JObj (<[ "approved" := JBool true ]> d)) k = d !! k)
  ∧ (∃ pend', stored_pending (run (approve (Some t)) w).2 = JObj pend'
              ∧ pend' !! t = None
              ∧ ∀ t', t' ≠ t → pend' !! t' = pend !! t')
  ∧ outbox (run (approve (Some t)) w).2 = outbox w.
Proof.
  intros Ht Hd Hpend Hst.
  rewrite (approve_run w t us pend Ht Hpend Hst).
  rewrite (js_lookup_own pend t (JObj d) Hd). cbn [property_truthy js_truthy fst snd].
  split; [done|]. split.
  { unfold stored_users, stored, promoted. cbn [kv].
    rewrite lookup_insert_ne by done. by rewrite lookup_insert_eq. }
  split; [by intros k Hk; apply lookup_insert_ne|].
  split; [|done].
  exists (delete t pend).
  split.
  { unfold stored_pending, stored, promoted. cbn [kv].
    by rewrite lookup_insert_eq. }
  split; [apply lookup_delete_eq|].
  intros t' Ht'. by apply lookup_delete_ne.
Qed.

(** *** The base URL *)


End Coverage.

(** ** The statements on sample data *)

(** The sample runs are on the concrete platform. *)
#[local] Existing Instance demo_platform.




Lemma register_mail_failure_keeps_draft_witness :
  demo_register !! "name" = Some (JStr "Binh")
  ∧ demo_register !! "email" = Some (JStr "binh@x.io")
  ∧ demo_register !! "password" = Some (JStr "secret")
  ∧ stored_users demo_world = JArr demo_users
  ∧ Forall well_formed demo_users
  ∧ stored_pending demo_world = JObj ∅
  ∧ mail_failure failing_mail_env = Some "connect ECONNREFUSED"
  ∧ ∃ r w', run (@register demo_platform failing_mail_env demo_register) demo_world
            = (Replied r, w')
            ∧ status r = 500%Z
            ∧ ∃ pend', stored_pending w' = JObj pend'
                       ∧ pend' !! "eyJ.binh@x.io.1700000000000"
                         = Some (JObj (@draft_of demo_platform failing_mail_env
                                         "Binh" "binh@x.io" "secret")).
Proof.
  assert (H1 : demo_register !! "name" = Some (JStr "Binh"))
    by (vm_compute; reflexivity).
  assert (H2 : demo_register !! "email" = Some (JStr "binh@x.io"))
    by (vm_compute; reflexivity).
  assert (H3 : demo_register !! "password" = Some (JStr "secret"))
    by (vm_compute; reflexivity).
  assert (H4 : stored_users demo_world = JArr demo_users)
    by (vm_compute; reflexivity).
  assert (H5 : Forall well_formed demo_users).
  { repeat constructor. exists "An@X.io". vm_compute. reflexivity. }
  assert (H6 : stored_pending demo_world = JObj ∅)
    by (vm_compute; reflexivity).
  assert (H7 : mail_failure failing_mail_env = Some "connect ECONNREFUSED")
    by reflexivity.
  do 7 (split; [assumption|]).
  destruct (@register_mail_failure_keeps_draft demo_platform failing_mail_env
              demo_world demo_register "Binh" "binh@x.io" "secret"
              "connect ECONNREFUSED" demo_users ∅
              H1 ltac:(discriminate) H2 ltac:(discriminate)
              H3 ltac:(discriminate) H4 H5 H6)
    as (r & w' & Hrun & _ & Hstatus & Hpend & _).
  - apply matched_user_None. vm_compute. reflexivity.
  - exact H7.
  - exists r, w'. split; [exact Hrun|]. split; [exact Hstatus|exact Hpend].
Defined.


Lemma create_then_list_round_trip_witness :
  "rooms" ∈ allowedTables
  ∧ stored_table "rooms" empty_world = JArr []
  ∧ ∃ w', run (data_create demo_env "rooms" demo_item) empty_world
          = (Replied done_ok, w')
          ∧ run (data_list "rooms") w'
            = (Replied (Response 200 (Json (JArr [room 101 1700000000000]))), w').
Proof.
  assert (H1 : "rooms" ∈ allowedTables)
    by (apply (bool_decide_unpack _); vm_compute; exact I).
  assert (H2 : stored_table "rooms" empty_world = JArr []) by reflexivity.
  do 2 (split; [assumption|]).
  destruct (create_then_list_round_trip demo_env "rooms"
              demo_item [] empty_world H1 H2)
    as (w' & Hcreate & Hlist & _).
  exists w'. split; [exact Hcreate|].
  rewrite Hlist. vm_compute. reflexivity.
Defined.

Lemma unknown_table_rejected_by_list_and_create_only_witness :
  ("unknown" ∉ allowedTables)
  ∧ stored_table "unknown" unknown_world = JArr [room 1 5]
  ∧ Forall record [room 1 5]
  ∧ run (data_list "unknown") unknown_world
    = (Replied table_rejected, unknown_world)
  ∧ run (data_create demo_env "unknown" ∅) unknown_world
    = (Replied table_rejected, unknown_world)
  ∧ ∃ w', run (data_delete "unknown" "5") unknown_world = (Replied done_ok, w')
          ∧ kv w' = <[ "data_unknown" := JArr [] ]> (kv unknown_world).
Proof.
  assert (H1 : "unknown" ∉ allowedTables)
    by (apply (bool_decide_unpack _); vm_compute; exact I).
  assert (H2 : stored_table "unknown" unknown_world = JArr [room 1 5])
    by reflexivity.
  assert (H3 : Forall record [room 1 5]) by all_records.
  do 3 (split; [assumption|]).
  destruct (unknown_table_rejected_by_list_and_create_only demo_env
              "unknown" unknown_world H1) as (Hlist & Hcreate & Hrest).
  split; [exact Hlist|]. split; [exact (Hcreate ∅)|].
  destruct (Hrest [room 1 5] "5" ∅ H2 H3) as ((w' & Hdel & Hkv) & _).
  exists w'. split; [exact Hdel|]. rewrite Hkv. vm_compute. reflexivity.
Defined.



Lemma data_api_confined_to_its_key_witness :
  kv (run (data_api demo_env (Delete "users" "1")) demo_world).2 !! "users"
  = Some (JArr demo_users)
  ∧ (run (data_api demo_env (Update "pending" "x" ∅)) demo_pending_world).1
    = (run (data_api demo_env (Update "pending" "x" ∅)) empty_world).1.
Proof.
  split.
  - destruct (data_api_confined_to_its_key demo_env (Delete "users" "1") demo_world)
      as (_ & Husers & _).
    rewrite Husers. reflexivity.
  - destruct (data_api_confined_to_its_key demo_env (Update "pending" "x" ∅) empty_world)
      as (_ & _ & _ & _ & _ & Hdep & _).
    apply Hdep. vm_compute. reflexivity.
Defined.

(** *** The statements on the routes together, on sample data *)

Lemma auth_api_footprint_witness :
  stored_table "rooms"
    (run (@auth_api demo_platform demo_env (Approve (Some binh_token)))
         full_world).2
  = JArr demo_rooms
  ∧ (run (@auth_api demo_platform demo_env (Login demo_login)) full_world).2
    = full_world.
Proof.
  destruct (@auth_api_footprint demo_platform demo_env
              (Approve (Some binh_token)) full_world) as (_ & Htable & _).
  destruct (@auth_api_footprint demo_platform demo_env
              (Login demo_login) full_world) as (_ & _ & Hlogin).
  split; [|exact Hlogin]. rewrite Htable. vm_compute. reflexivity.
Defined.

Lemma auth_api_keeps_shapes_witness :
  users_listed demo_pending_world
  ∧ pending_mapped demo_pending_world
  ∧ users_listed
      (run (@auth_api demo_platform demo_env (Approve (Some "constructor")))
           demo_pending_world).2
  ∧ pending_mapped
      (run (@auth_api demo_platform demo_env (Approve (Some "constructor")))
           demo_pending_world).2.
Proof.
  assert (H1 : users_listed demo_pending_world)
    by (exists demo_users; vm_compute; reflexivity).
  assert (H2 : pending_mapped demo_pending_world)
    by (exists demo_pending; vm_compute; reflexivity).
  destruct (@auth_api_keeps_shapes demo_platform demo_env
              (Approve (Some "constructor")) demo_pending_world)
    as [Husers Hpending].
  split; [exact H1|]. split; [exact H2|].
  split; [exact (Husers H1)|exact (Hpending H2)].
Defined.

Lemma sound_demo_pending_world : sound demo_pending_world.
Proof.
  exists demo_users, demo_pending.
  split; [vm_compute; reflexivity|].
  split; [repeat constructor; exists "An@X.io"; vm_compute; reflexivity|].
  split; [vm_compute; reflexivity|].
  intros t d Ht. unfold demo_pending in Ht.
  apply lookup_singleton_Some in Ht as [_ <-].
  exists "Binh@x.io". vm_compute. reflexivity.
Defined.

Lemma auth_api_keeps_sound_witness :
  proper (Register demo_register)
  ∧ sound demo_pending_world
  ∧ sound (run (@auth_api demo_platform demo_env (Register demo_register))
               demo_pending_world).2.
Proof.
  assert (H1 : proper (Register demo_register)).
  { intros v Hv. vm_compute in Hv. injection Hv as <-. by eexists. }
  split; [exact H1|]. split; [exact sound_demo_pending_world|].
  exact (@auth_api_keeps_sound demo_platform demo_env
           (Register demo_register) demo_pending_world H1
           sound_demo_pending_world).
Defined.

Lemma login_never_returns_password_witness :
  run (@login demo_platform demo_env demo_login) demo_world
  = (Replied (@logged_in demo_platform demo_env demo_user), demo_world)
  ∧ ∃ token user,
      payload (@logged_in demo_platform demo_env demo_user)
      = Json (JObj (<[ "token" := JStr token ]> {[ "user" := JObj user ]}))
      ∧ user !! "password" = None.
Proof.
  assert (H1 : run (@login demo_platform demo_env demo_login) demo_world
               = (Replied (@logged_in demo_platform demo_env demo_user),
                  demo_world))
    by (vm_compute; reflexivity).
  split; [exact H1|].
  exact (@login_never_returns_password demo_platform demo_env demo_login
           demo_world demo_world _ H1 eq_refl).
Defined.

Lemma login_and_forgot_without_email_witness :
  (∀ s, (∅ : gmap string json) !! "email" ≠ Some (JStr s))
  ∧ stored_users demo_world = JArr demo_users
  ∧ Forall well_formed demo_users
  ∧ ∃ x, run (@login demo_platform demo_env ∅) demo_world
         = (Unhandled (TypeError x), demo_world)
         ∧ run (@forgot demo_platform demo_env ∅) demo_world
           = (Unhandled (TypeError x), demo_world).
Proof.
  assert (H1 : ∀ s, (∅ : gmap string json) !! "email" ≠ Some (JStr s))
    by (intros s; rewrite lookup_empty; discriminate).
  assert (H2 : stored_users demo_world = JArr demo_users) by reflexivity.
  assert (H3 : Forall well_formed demo_users).
  { repeat constructor. exists "An@X.io". vm_compute. reflexivity. }
  do 3 (split; [assumption|]).
  destruct (@login_and_forgot_without_email demo_platform demo_env
              ∅ demo_world demo_users H1 H2 H3) as [_ Hnonempty].
  apply Hnonempty. discriminate.
Defined.

Lemma register_with_non_string_email_witness :
  numeric_email_register !! "name" = Some (JStr "Binh")
  ∧ numeric_email_register !! "email" = Some (JNum 5)
  ∧ numeric_email_register !! "password" = Some (JStr "secret")
  ∧ stored_users empty_world = JArr []
  ∧ stored_pending empty_world = JObj ∅
  ∧ ∃ w' d, run (@register demo_platform demo_env numeric_email_register)
                empty_world
            = (Replied registered, w')
            ∧ field (JObj d) "email" = Some (JNum 5)
            ∧ ¬ sound w'.
Proof.
  assert (H1 : numeric_email_register !! "name" = Some (JStr "Binh"))
    by (vm_compute; reflexivity).
  assert (H2 : numeric_email_register !! "email" = Some (JNum 5))
    by (vm_compute; reflexivity).
  assert (H3 : numeric_email_register !! "password" = Some (JStr "secret"))
    by (vm_compute; reflexivity).
  assert (H4 : stored_users empty_world = JArr []) by reflexivity.
  assert (H5 : stored_pending empty_world = JObj ∅) by reflexivity.
  do 5 (split; [assumption|]).
  destruct (@register_with_non_string_email demo_platform demo_env
              numeric_email_register empty_world "Binh" "secret" (JNum 5) [] ∅
              H1 ltac:(discriminate) H2 eq_refl ltac:(discriminate)
              H3 ltac:(discriminate) H4 (Forall_nil_2 _) H5)
    as [_ Hempty].
  destruct (Hempty eq_refl eq_refl (ex_intro _ "5" eq_refl))
    as (w' & d & Hrun & _ & Hfield & Hunsound).
  exists w', d. split; [exact Hrun|]. split; [exact Hfield|exact Hunsound].
Defined.

Lemma register_with_non_string_password_witness :
  numeric_password_register !! "name" = Some (JStr "Binh")
  ∧ numeric_password_register !! "email" = Some (JStr "binh@x.io")
  ∧ numeric_password_register !! "password" = Some (JNum 5)
  ∧ stored_users demo_world = JArr demo_users
  ∧ Forall well_formed demo_users
  ∧ matched_user "binh@x.io" demo_users = None
  ∧ run (@register demo_platform demo_env numeric_password_register) demo_world
    = (Replied (Response 500
         (Json (JObj (<[ "message" := JStr "Lỗi đăng ký" ]>
            {[ "error" := JStr "Illegal arguments: number, number" ]})))),
       demo_world).
Proof.
  assert (H1 : numeric_password_register !! "name" = Some (JStr "Binh"))
    by (vm_compute; reflexivity).
  assert (H2 : numeric_password_register !! "email" = Some (JStr "binh@x.io"))
    by (vm_compute; reflexivity).
  assert (H3 : numeric_password_register !! "password" = Some (JNum 5))
    by (vm_compute; reflexivity).
  assert (H4 : stored_users demo_world = JArr demo_users) by reflexivity.
  assert (H5 : Forall well_formed demo_users).
  { repeat constructor. exists "An@X.io". vm_compute. reflexivity. }
  assert (H6 : matched_user "binh@x.io" demo_users = None)
    by (vm_compute; reflexivity).
  do 6 (split; [assumption|]).
  exact (proj1 (@register_with_non_string_password demo_platform demo_env
           numeric_password_register demo_world (JStr "Binh") (JNum 5)
           "binh@x.io" demo_users
           H1 eq_refl H2 ltac:(discriminate) H3 eq_refl ltac:(discriminate)
           H4 H5 H6)).
Defined.

Lemma forgot_mail_failure_keeps_reset_witness :
  stored_users mixed_world = JArr mixed_users
  ∧ Forall well_formed mixed_users
  ∧ demo_forgot !! "email" = Some (JStr "CHI@x.io")
  ∧ matched_user "CHI@x.io" mixed_users = Some (1, unapproved_user)
  ∧ ∃ w', run (@forgot demo_platform failing_mail_env demo_forgot) mixed_world
          = (Unhandled (TransportError "connect ECONNREFUSED"), w')
          ∧ stored_users w'
            = JArr [demo_user; @reset_user demo_platform failing_mail_env unapproved_user]
          ∧ outbox w' = [].
Proof.
  assert (H1 : stored_users mixed_world = JArr mixed_users) by reflexivity.
  assert (H2 : Forall well_formed mixed_users).
  { repeat constructor;
      [exists "An@X.io" | exists "chi@x.io"]; vm_compute; reflexivity. }
  assert (H3 : demo_forgot !! "email" = Some (JStr "CHI@x.io"))
    by (vm_compute; reflexivity).
  assert (H4 : matched_user "CHI@x.io" mixed_users = Some (1, unapproved_user))
    by (vm_compute; reflexivity).
  do 4 (split; [assumption|]).
  destruct (@forgot_mail_failure_keeps_reset demo_platform failing_mail_env
              mixed_world mixed_users "CHI@x.io" "connect ECONNREFUSED"
              demo_forgot 1 unapproved_user H1 H2 H3 H4 eq_refl)
    as (w' & Hrun & Hstored & _ & Hout).
  exists w'. split; [exact Hrun|]. split; [exact Hstored|exact Hout].
Defined.

Lemma forgot_then_login_witness :
  stored_users demo_world = JArr demo_users
  ∧ Forall well_formed demo_users
  ∧ matched_user "an@x.IO" demo_users = Some (0, demo_user)
  ∧ temporary_login !! "password" = Some (JStr (temporary_password demo_env))
  ∧ (run (@login demo_platform demo_env temporary_login)
         (run (@forgot demo_platform demo_env demo_login) demo_world).2).1
    = Replied (@logged_in demo_platform demo_env
                 (@reset_user demo_platform demo_env demo_user)).
Proof.
  assert (H1 : stored_users demo_world = JArr demo_users) by reflexivity.
  assert (H2 : Forall well_formed demo_users).
  { repeat constructor. exists "An@X.io". vm_compute. reflexivity. }
  assert (H3 : matched_user "an@x.IO" demo_users = Some (0, demo_user))
    by (vm_compute; reflexivity).
  assert (H4 : temporary_login !! "password"
               = Some (JStr (temporary_password demo_env)))
    by (vm_compute; reflexivity).
  do 4 (split; [assumption|]).
  destruct (@forgot_then_login demo_platform demo_env demo_world demo_users
              "an@x.IO" demo_login temporary_login 0 demo_user
              H1 H2 ltac:(vm_compute; reflexivity) H3
              ltac:(vm_compute; reflexivity) eq_refl
              ltac:(vm_compute; reflexivity) H4)
    as (_ & _ & Hlogin).
  exact Hlogin.
Defined.

Lemma login_ignores_later_users_witness :
  stored_users demo_world = JArr demo_users
  ∧ stored_users shadowed_world = JArr (demo_users ++ [shadowed_user])
  ∧ Forall well_formed demo_users
  ∧ Forall well_formed [shadowed_user]
  ∧ matched_user "an@x.IO" demo_users = Some (0, demo_user)
  ∧ (run (@login demo_platform demo_env demo_login) shadowed_world).1
    = (run (@login demo_platform demo_env demo_login) demo_world).1.
Proof.
  assert (H1 : stored_users demo_world = JArr demo_users) by reflexivity.
  assert (H2 : stored_users shadowed_world = JArr (demo_users ++ [shadowed_user]))
    by reflexivity.
  assert (H3 : Forall well_formed demo_users).
  { repeat constructor. exists "An@X.io". vm_compute. reflexivity. }
  assert (H4 : Forall well_formed [shadowed_user]).
  { repeat constructor. exists "AN@x.io". vm_compute. reflexivity. }
  assert (H5 : matched_user "an@x.IO" demo_users = Some (0, demo_user))
    by (vm_compute; reflexivity).
  do 5 (split; [assumption|]).
  exact (@login_ignores_later_users demo_platform demo_env demo_world
           shadowed_world demo_users [shadowed_user] "an@x.IO" demo_login
           0 demo_user H1 H2 H3 H4 ltac:(vm_compute; reflexivity) H5).
Defined.

Lemma create_then_delete_round_trip_witness :
  "rooms" ∈ allowedTables
  ∧ stored_table "rooms" rooms_world = JArr demo_rooms
  ∧ Forall record demo_rooms
  ∧ matched_record "1700000000000" demo_rooms = None
  ∧ stored_table "rooms"
      (run (data_delete "rooms" "1700000000000")
           (run (data_create demo_env "rooms" demo_item) rooms_world).2).2
    = JArr demo_rooms.
Proof.
  assert (H1 : "rooms" ∈ allowedTables)
    by (apply (bool_decide_unpack _); vm_compute; exact I).
  assert (H2 : stored_table "rooms" rooms_world = JArr demo_rooms) by reflexivity.
  assert (H3 : Forall record demo_rooms) by all_records.
  assert (H4 : matched_record "1700000000000" demo_rooms = None)
    by (vm_compute; reflexivity).
  do 4 (split; [assumption|]).
  destruct (create_then_delete_round_trip demo_env "rooms" demo_item
              demo_rooms rooms_world H1 H2 H3 H4) as (_ & _ & Hback).
  exact Hback.
Defined.

Lemma creates_in_one_millisecond_share_id_witness :
  "rooms" ∈ allowedTables
  ∧ stored_table "rooms" empty_world = JArr []
  ∧ stored_table "rooms"
      (run (data_create demo_env "rooms" demo_patch)
           (run (data_create demo_env "rooms" demo_item) empty_world).2).2
    = JArr [ JObj (<[ "id" := JNum 1700000000000 ]> demo_item);
             JObj (<[ "id" := JNum 1700000000000 ]> demo_patch) ]
  ∧ stored_table "rooms"
      (run (data_delete "rooms" "1700000000000")
           (run (data_create demo_env "rooms" demo_patch)
                (run (data_create demo_env "rooms" demo_item) empty_world).2).2).2
    = JArr [].
Proof.
  assert (H1 : "rooms" ∈ allowedTables)
    by (apply (bool_decide_unpack _); vm_compute; exact I).
  assert (H2 : stored_table "rooms" empty_world = JArr []) by reflexivity.
  do 2 (split; [assumption|]).
  destruct (creates_in_one_millisecond_share_id demo_env "rooms"
              demo_item demo_patch ∅ [] empty_world H1 H2
              (Forall_nil_2 _) eq_refl)
    as (Hboth & _ & Hdeleted & _).
  split; [exact Hboth|exact Hdeleted].
Defined.

Lemma delete_is_idempotent_witness :
  stored_table "rooms" rooms_world = JArr demo_rooms
  ∧ Forall record demo_rooms
  ∧ run (data_delete "rooms" "1700000000001")
        (run (data_delete "rooms" "1700000000001") rooms_world).2
    = (Replied done_ok, (run (data_delete "rooms" "1700000000001") rooms_world).2)
  ∧ run (data_update "rooms" "1700000000001" demo_patch)
        (run (data_delete "rooms" "1700000000001") rooms_world).2
    = (Replied item_not_found,
       (run (data_delete "rooms" "1700000000001") rooms_world).2).
Proof.
  assert (H1 : stored_table "rooms" rooms_world = JArr demo_rooms) by reflexivity.
  assert (H2 : Forall record demo_rooms) by all_records.
  do 2 (split; [assumption|]).
  exact (delete_is_idempotent "rooms" "1700000000001" demo_patch
           demo_rooms rooms_world H1 H2).
Defined.

Lemma update_is_idempotent_witness :
  stored_table "rooms" rooms_world = JArr demo_rooms
  ∧ Forall record demo_rooms
  ∧ matched_record "1700000000001" demo_rooms = Some (0, room 101 1700000000001)
  ∧ id_string (JObj (demo_patch ∪ spread (room 101 1700000000001)))
    = Some "1700000000001"
  ∧ run (data_update "rooms" "1700000000001" demo_patch)
        (run (data_update "rooms" "1700000000001" demo_patch) rooms_world).2
    = (Replied done_ok,
       (run (data_update "rooms" "1700000000001" demo_patch) rooms_world).2).
Proof.
  assert (H1 : stored_table "rooms" rooms_world = JArr demo_rooms) by reflexivity.
  assert (H2 : Forall record demo_rooms) by all_records.
  assert (H3 : matched_record "1700000000001" demo_rooms
               = Some (0, room 101 1700000000001))
    by (vm_compute; reflexivity).
  assert (H4 : id_string (JObj (demo_patch ∪ spread (room 101 1700000000001)))
               = Some "1700000000001")
    by (vm_compute; reflexivity).
  do 4 (split; [assumption|]).
  exact (update_is_idempotent "rooms" "1700000000001" demo_patch
           demo_rooms rooms_world 0 (room 101 1700000000001) H1 H2 H3 H4).
Defined.

Lemma update_can_change_id_witness :
  stored_table "rooms" rooms_world = JArr demo_rooms
  ∧ Forall record demo_rooms
  ∧ matched_record "1700000000002" demo_rooms = Some (1, room 102 1700000000002)
  ∧ rekey_patch !! "id" = Some (JStr "new")
  ∧ id_string (JObj (rekey_patch ∪ spread (room 102 1700000000002))) = Some "new"
  ∧ run (data_update "rooms" "1700000000002" demo_patch)
        (run (data_update "rooms" "1700000000002" rekey_patch) rooms_world).2
    = (Replied item_not_found,
       (run (data_update "rooms" "1700000000002" rekey_patch) rooms_world).2).
Proof.
  assert (H1 : stored_table "rooms" rooms_world = JArr demo_rooms) by reflexivity.
  assert (H2 : Forall record demo_rooms) by all_records.
  assert (H3 : matched_record "1700000000002" demo_rooms
               = Some (1, room 102 1700000000002))
    by (vm_compute; reflexivity).
  assert (H4 : rekey_patch !! "id" = Some (JStr "new"))
    by (vm_compute; reflexivity).
  do 4 (split; [assumption|]).
  destruct (update_can_change_id "rooms" "1700000000002" "new"
              rekey_patch demo_patch (JStr "new") demo_rooms rooms_world
              1 (room 102 1700000000002) H1 H2 H3 H4 eq_refl)
    as (Hid & _ & Hgone).
  split; [exact Hid|]. apply Hgone; [discriminate|].
  intros j x Hj Hne.
  destruct j as [|[|[|j]]]; [| done | |discriminate];
    vm_compute in Hj; injection Hj as <-; vm_compute; discriminate.
Defined.

Lemma data_api_isolates_tables_witness :
  "guests" ≠ table_of (Delete "rooms" "1700000000001")
  ∧ stored_table "guests"
      (run (data_api demo_env (Delete "rooms" "1700000000001")) rooms_world).2
    = stored_table "guests" rooms_world.
Proof.
  assert (H1 : "guests" ≠ table_of (Delete "rooms" "1700000000001"))
    by discriminate.
  split; [exact H1|].
  exact (data_api_isolates_tables demo_env (Delete "rooms" "1700000000001")
           "guests" rooms_world H1).
Defined.

Lemma record_routes_on_a_non_list_witness :
  (∀ l, stored_table "rooms" broken_world ≠ JArr l)
  ∧ "rooms" ∈ allowedTables
  ∧ run (data_list "rooms") broken_world
    = (Replied (Response 200 (Json (JObj {[ "rooms" := JArr [] ]}))), broken_world)
  ∧ ∃ x, run (data_delete "rooms" "1") broken_world
         = (Unhandled (TypeError x), broken_world).
Proof.
  assert (H1 : ∀ l, stored_table "rooms" broken_world ≠ JArr l)
    by (intros l; vm_compute; discriminate).
  assert (H2 : "rooms" ∈ allowedTables)
    by (apply (bool_decide_unpack _); vm_compute; exact I).
  do 2 (split; [assumption|]).
  destruct (record_routes_on_a_non_list demo_env "rooms" "1" ∅ ∅
              broken_world H1) as (Hlist & x & _ & _ & Hdelete).
  split; [exact (Hlist H2)|]. exists x. exact Hdelete.
Defined.

Lemma register_mails_the_stored_token_witness :
  demo_register !! "name" = Some (JStr "Binh")
  ∧ demo_register !! "email" = Some (JStr "binh@x.io")
  ∧ demo_register !! "password" = Some (JStr "secret")
  ∧ stored_users demo_world = JArr demo_users
  ∧ Forall well_formed demo_users
  ∧ stored_pending demo_world = JObj ∅
  ∧ matched_user "binh@x.io" demo_users = None
  ∧ ∃ token link pend',
      link = "https://phongnews.example/api/auth/approve?token=" +:+ token
      ∧ length (outbox (run (@register demo_platform demo_env demo_register)
                            demo_world).2) = 1%nat
      ∧ stored_pending (run (@register demo_platform demo_env demo_register)
                            demo_world).2 = JObj pend'
      ∧ is_Some (pend' !! token).
Proof.
  assert (H1 : demo_register !! "name" = Some (JStr "Binh"))
    by (vm_compute; reflexivity).
  assert (H2 : demo_register !! "email" = Some (JStr "binh@x.io"))
    by (vm_compute; reflexivity).
  assert (H3 : demo_register !! "password" = Some (JStr "secret"))
    by (vm_compute; reflexivity).
  assert (H4 : stored_users demo_world = JArr demo_users) by reflexivity.
  assert (H5 : Forall well_formed demo_users).
  { repeat constructor. exists "An@X.io". vm_compute. reflexivity. }
  assert (H6 : stored_pending demo_world = JObj ∅) by reflexivity.
  assert (H7 : matched_user "binh@x.io" demo_users = None)
    by (vm_compute; reflexivity).
  do 7 (split; [assumption|]).
  destruct (@register_mails_the_stored_token demo_platform demo_env
              demo_world demo_register "Binh" "binh@x.io" "secret"
              demo_users ∅
              H1 ltac:(discriminate) H2 ltac:(discriminate)
              H3 ltac:(discriminate) H4 H5 H6 H7 eq_refl)
    as (token & link & pend' & Hlink & Hout & Hpend & Hdraft).
  exists token, link, pend'. split; [exact Hlink|].
  split; [rewrite Hout; reflexivity|]. split; [exact Hpend|].
  rewrite Hdraft. by eexists.
Defined.


Lemma register_approve_login_witness :
  demo_register !! "name" = Some (JStr "Binh")
  ∧ demo_register !! "email" = Some (JStr "binh@x.io")
  ∧ demo_register !! "password" = Some (JStr "secret")
  ∧ stored_users demo_world = JArr demo_users
  ∧ Forall well_formed demo_users
  ∧ stored_pending demo_world = JObj ∅
  ∧ matched_user "binh@x.io" demo_users = None
  ∧ (run (@login demo_platform demo_env demo_register)
         (run (approve (Some (@token_of demo_platform demo_env "binh@x.io")))
              (run (@register demo_platform demo_env demo_register)
                   demo_world).2).2).1
    = Replied (@logged_in demo_platform demo_env
                 (JObj (<[ "approved" := JBool true ]>
                        (@draft_of demo_platform demo_env
                           "Binh" "binh@x.io" "secret")))).
Proof.
  assert (H1 : demo_register !! "name" = Some (JStr "Binh"))
    by (vm_compute; reflexivity).
  assert (H2 : demo_register !! "email" = Some (JStr "binh@x.io"))
    by (vm_compute; reflexivity).
  assert (H3 : demo_register !! "password" = Some (JStr "secret"))
    by (vm_compute; reflexivity).
  assert (H4 : stored_users demo_world = JArr demo_users) by reflexivity.
  assert (H5 : Forall well_formed demo_users).
  { repeat constructor. exists "An@X.io". vm_compute. reflexivity. }
  assert (H6 : stored_pending demo_world = JObj ∅) by reflexivity.
  assert (H7 : matched_user "binh@x.io" demo_users = None)
    by (vm_compute; reflexivity).
  do 7 (split; [assumption|]).
  destruct (@register_approve_login demo_platform demo_env
              demo_world demo_register "Binh" "binh@x.io" "secret"
              demo_users ∅
              H1 ltac:(discriminate) H2 ltac:(discriminate)
              H3 ltac:(discriminate) H4 H5 H6 H7 eq_refl
              ltac:(vm_compute; discriminate))
    as (_ & _ & _ & Hlogin).
  rewrite Hlogin. reflexivity.
Defined.

Lemma approve_promotes_one_draft_witness :
  demo_pending !! binh_token = Some (JObj binh_draft)
  ∧ stored_pending demo_pending_world = JObj demo_pending
  ∧ stored_users demo_pending_world = JArr demo_users
  ∧ (run (approve (Some binh_token)) demo_pending_world).1 = Replied approved_ok
  ∧ ∃ pend', stored_pending (run (approve (Some binh_token)) demo_pending_world).2
             = JObj pend'
             ∧ pend' !! binh_token = None.
Proof.
  assert (H1 : demo_pending !! binh_token = Some (JObj binh_draft))
    by (vm_compute; reflexivity).
  assert (H2 : stored_pending demo_pending_world = JObj demo_pending)
    by (vm_compute; reflexivity).
  assert (H3 : stored_users demo_pending_world = JArr demo_users)
    by (vm_compute; reflexivity).
  do 3 (split; [assumption|]).
  destruct (approve_promotes_one_draft demo_pending_world binh_token
              demo_users demo_pending binh_draft ltac:(discriminate) H1 H2 H3)
    as (Hreply & _ & _ & (pend' & Hpend & Hgone & _) & _).
  split; [exact Hreply|]. exists pend'. split; [exact Hpend|exact Hgone].
Defined.
